(** * The configuration module of the WhisperX FastAPI service

    A shallow embedding of [app/core/config.py]: the module-load steps that
    run before [torch] is imported (the LD_PRELOAD fallback and the guard
    around the import), the four settings classes with their validators,
    and the cached accessor [get_settings].

    The settings classes are declarative: their behaviour is the behaviour
    of pydantic-settings' [BaseSettings] under each class's [model_config].
    The parts of that machinery the module relies on (which source a field
    is read from, how variable names are matched, when validators run) are
    written out here; what the libraries compute on values (JSON decoding,
    [str.lower] beyond ASCII, the members of the imported enums) is taken
    as a parameter, see [Externals]. *)

From stdpp Require Import base option list strings gmap.
From Stdlib Require Import Ascii.

(** ** Strings *)

(** Python's [sub in s] on [str]. *)
Fixpoint str_contains (sub s : string) : bool :=
  String.prefix sub s ||
  match s with
  | EmptyString => false
  | String _ s' => str_contains sub s'
  end.

(** The line feed of the f-strings. *)
Definition nl : string := String (ascii_of_nat 10) EmptyString.

Definition str_nonempty (s : string) : bool :=
  match s with EmptyString => false | String _ _ => true end.

(** ** The process environment, [os.environ]

    A dict from names to values; iteration order is insertion order, which
    pydantic-settings observes when it lower-cases the names, so the model
    keeps the entries in order. *)

Definition Environ : Type := list (string * string).

(** [os.environ.get(name)] *)
Fixpoint environ_get (env : Environ) (name : string) : option string :=
  match env with
  | [] => None
  | (k, v) :: env' => if bool_decide (k = name) then Some v else environ_get env' name
  end.

(** [os.environ[name] = value]: an existing entry keeps its place. *)
Fixpoint environ_set (env : Environ) (name value : string) : Environ :=
  match env with
  | [] => [(name, value)]
  | (k, v) :: env' =>
      if bool_decide (k = name) then (k, value) :: env'
      else (k, v) :: environ_set env' name value
  end.

(** [os.environ.get(name, default)] *)
Definition environ_get_default (env : Environ) (name dflt : string) : string :=
  default dflt (environ_get env name).

(** ** Module load, lines 12-35: the LD_PRELOAD fallback *)

(** What the fallback asks of the host. *)
Record Host := {
  uname_machine : string;           (* os.uname().machine *)
  path_exists : string → bool;      (* os.path.exists *)
  glob : string → list string;      (* glob.glob *)
}.

(** [posixpath.dirname]: the part up to the last separator, with trailing
    separators removed unless it consists of separators only. *)
Fixpoint dirname_head (p : string) : option string :=
  match p with
  | EmptyString => None
  | String c p' =>
      match dirname_head p' with
      | Some h => Some (String c h)
      | None => if bool_decide (c = "/"%char) then Some (String c EmptyString) else None
      end
  end.

Fixpoint rstrip_sep (s : string) : string :=
  match s with
  | EmptyString => EmptyString
  | String c s' =>
      let r := rstrip_sep s' in
      if bool_decide (r = EmptyString) && bool_decide (c = "/"%char)
      then EmptyString else String c r
  end.

Definition dirname (p : string) : string :=
  let head := default EmptyString (dirname_head p) in
  let r := rstrip_sep head in
  if str_nonempty r then r else head.

Definition torch_lib : string := "/usr/local/lib/python3.11/dist-packages/torch/lib".

Definition system_nccl (h : Host) : string :=
  "/usr/lib/" +:+ uname_machine h +:+ "-linux-gnu/libnccl.so.2".

(** Lines 20-28: the system library first, then the one bundled with torch. *)
Definition find_nccl_lib (h : Host) : option string :=
  if path_exists h (system_nccl h) then Some (system_nccl h)
  else if path_exists h torch_lib then
    match glob h (torch_lib +:+ "/libnccl*.so*") with
    | f :: _ => Some f
    | [] => None
    end
  else None.

Definition preload_fallback (h : Host) (env : Environ) : Environ :=
  match environ_get env "LD_PRELOAD" with
  | Some (String _ _) => env
  | _ =>
      match find_nccl_lib h with
      | Some nccl_lib =>
          if str_nonempty nccl_lib && path_exists h nccl_lib then
            let env1 := environ_set env "LD_PRELOAD" nccl_lib in
            let nccl_dir := dirname nccl_lib in
            let current_ld_path := environ_get_default env1 "LD_LIBRARY_PATH" "" in
            environ_set env1 "LD_LIBRARY_PATH"
              (nccl_dir +:+ ":" +:+ torch_lib +:+ ":/usr/local/cuda/lib64:" +:+ current_ld_path)
          else env
      | None => env
      end
  end.

(** ** Module load, lines 37-55: the guard around [import torch] *)

(** The class of an exception, as far as the [except] clause tells classes
    apart: each of the first three stands for the class and its subclasses,
    [OtherException] for every class outside the three. *)
Inductive ExcClass :=
  | ImportError
  | OSError
  | RuntimeError
  | OtherException (name : string).

(** An exception object: its class and [str(e)]; [ExcFrom] is one raised
    with [raise ... from cause], whose [__cause__] is [cause]. *)
Inductive Exception :=
  | Exc (cls : ExcClass) (msg : string)
  | ExcFrom (cls : ExcClass) (msg : string) (cause : Exception).

Definition exc_class (e : Exception) : ExcClass :=
  match e with Exc c _ | ExcFrom c _ _ => c end.
Definition exc_str (e : Exception) : string :=
  match e with Exc _ m | ExcFrom _ m _ => m end.
Definition exc_cause (e : Exception) : option Exception :=
  match e with Exc _ _ => None | ExcFrom _ _ c => Some c end.

(** [except (ImportError, OSError, RuntimeError)] *)
Definition guard_catches (c : ExcClass) : bool :=
  match c with
  | ImportError | OSError | RuntimeError => true
  | OtherException _ => false
  end.

Definition nccl_marker (error_msg : string) : bool :=
  str_contains "ncclGroupSimulateEnd" error_msg || str_contains "undefined symbol" error_msg.

Definition nccl_message (error_msg ld_preload ld_library_path : string) : string :=
  "PyTorch import failed due to NCCL compatibility issue: " +:+ error_msg +:+ nl +:+
  "This usually indicates that PyTorch 2.8+ requires NCCL 2.18+ with the " +:+
  "'ncclGroupSimulateEnd' symbol." +:+ nl +:+
  "Diagnostic information:" +:+ nl +:+
  "  LD_PRELOAD: " +:+ ld_preload +:+ nl +:+
  "  LD_LIBRARY_PATH: " +:+ ld_library_path +:+ nl +:+
  "  Python attempted to set LD_PRELOAD but it may be too late." +:+ nl +:+
  "Please ensure the startup script correctly sets LD_PRELOAD to a compatible NCCL library.".

(** The exception that leaves the [try] statement when [import torch]
    raised [e] under the environment [env]. *)
Definition import_guard (env : Environ) (e : Exception) : Exception :=
  if guard_catches (exc_class e) then
    let error_msg := exc_str e in
    if nccl_marker error_msg then
      let ld_preload := environ_get_default env "LD_PRELOAD" "not set" in
      let ld_library_path := environ_get_default env "LD_LIBRARY_PATH" "not set" in
      ExcFrom ImportError (nccl_message error_msg ld_preload ld_library_path) e
    else e
  else e.

(** Lines 12-55 together: [import_torch] is what the import does, [None]
    when it succeeds. The result is the environment the rest of the module
    sees, or the exception that aborts the load. *)
Definition load_torch (h : Host) (env : Environ) (import_torch : option Exception)
  : Exception + Environ :=
  let env' := preload_fallback h env in
  match import_torch with
  | None => inr env'
  | Some e => inl (import_guard env' e)
  end.

(** ** What the libraries compute *)

(** A value as pydantic receives it for a field: a [str] (every value read
    from the environment or from the env file is one), or some other
    object that [json.loads] produced. *)
Inductive PyVal (J : Type) :=
  | PyStr (s : string)
  | PyJson (j : J).
Arguments PyStr {J} s.
Arguments PyJson {J} j.

(** Variables as pydantic-settings holds them: python-dotenv gives [None]
    to a name that stands in the file without a value. *)
Definition EnvVars : Type := list (string * option string).

(** ASCII lower-casing, on which [str.lower] agrees for ASCII text. *)
Definition ascii_lower_char (c : ascii) : ascii :=
  let n := nat_of_ascii c in
  if (65 <=? n)%nat && (n <=? 90)%nat then ascii_of_nat (n + 32) else c.

Fixpoint ascii_lower (s : string) : string :=
  match s with
  | EmptyString => EmptyString
  | String c s' => String (ascii_lower_char c) (ascii_lower s')
  end.

Fixpoint str_is_ascii (s : string) : bool :=
  match s with
  | EmptyString => true
  | String c s' => (nat_of_ascii c <? 128)%nat && str_is_ascii s'
  end.

(** Modelled from the spec: the enum [Device] of [app.schemas], which the
    module imports and which has the two members [cuda] and [cpu]. *)
Inductive Device := cuda | cpu.

Global Instance Device_eq_dec : EqDecision Device.
Proof. solve_decision. Defined.

(** Modelled from the spec: the values of the two members of [Device],
    the strings the spec writes for them. *)
Definition Device_of_value (s : string) : option Device :=
  if bool_decide (s = "cuda") then Some cuda
  else if bool_decide (s = "cpu") then Some cpu
  else None.

(** The functions of Python, pydantic and pydantic-settings that the
    settings classes go through, and the two enums of [app.schemas] whose
    member lists the module does not show. *)
Class Externals := {
  (** [str.lower] *)
  str_lower : string → string;
  str_lower_ascii : ∀ s, str_is_ascii s = true → str_lower s = ascii_lower s;
  (** the objects other than [str] that [json.loads] yields, [None] among them *)
  Json : Type;
  (** [json.loads]; [None] when it raises *)
  json_loads : string → option (PyVal Json);
  json_is_None : Json → bool;
  (** the items of a [dict] *)
  json_dict : Json → option (list (string * PyVal Json));
  (** pydantic-settings' [deep_update] of one dict by another *)
  json_deep_update : Json → Json → Json;
  (** pydantic's validation of a [bool] field *)
  str_bool : string → option bool;
  json_bool : Json → option bool;
  (** pydantic's validation of a [set[str]] field *)
  json_str_set : Json → option (gset string);
  (** [EnvSettingsSource.prepare_field_value] for a field that holds a
      model, under a nested delimiter: the JSON value of the variable
      named like the field, updated with the variables that carry the
      field's prefix. It is given the variables of these names only.
      The outer [None] is a [SettingsError], the inner one no value. *)
  prepare_nested_value :
    string → string → EnvVars → option (option (PyVal Json));
  (** [app.schemas.ComputeType], of which the module names two members *)
  ComputeType : Type;
  float16 : ComputeType;
  int8 : ComputeType;
  ComputeType_eq_dec :: EqDecision ComputeType;
  ComputeType_validate : PyVal Json → option ComputeType;
  (** [app.schemas.WhisperModel], of which the module names one member *)
  WhisperModel : Type;
  tiny : WhisperModel;
  WhisperModel_validate : PyVal Json → option WhisperModel;
}.

(** ** Construction results *)

(** What a failed construction raises: pydantic's [ValidationError] for a
    value that a field does not accept, pydantic-settings' [SettingsError]
    for a JSON-valued variable that does not decode. The specification has
    one name for both, which is the one used here. *)
Inductive ConstructionError := ConfigValidationError.

Inductive result (A : Type) :=
  | Ok (a : A)
  | Raise (e : ConstructionError).
Arguments Ok {A} a.
Arguments Raise {A} e.

Global Instance result_ret : MRet result := λ A, Ok.
Global Instance result_bind : MBind result := λ A B f m,
  match m with Ok a => f a | Raise e => Raise e end.

Definition of_option {A} (o : option A) : result A :=
  match o with Some a => Ok a | None => Raise ConfigValidationError end.

(** ** The settings sources of pydantic-settings *)

Inductive ExtraMode := extra_allow | extra_ignore | extra_forbid.

(** The keys of [SettingsConfigDict] that the module sets. *)
Record SettingsConfigDict := {
  env_file : option string;
  env_file_encoding : option string;
  case_sensitive : bool;
  extra : ExtraMode;
  env_nested_delimiter : option string;
}.

(** [BaseSettings.model_config], which a settings class without a
    [model_config] of its own inherits. *)
Definition BaseSettings_model_config : SettingsConfigDict := {|
  env_file := None;
  env_file_encoding := None;
  case_sensitive := false;
  extra := extra_forbid;
  env_nested_delimiter := None;
|}.

(** What a construction reads besides its arguments. *)
Record World := {
  os_environ : Environ;
  env_files : gmap string EnvVars;   (* the env files by path, as python-dotenv parses them *)
  cuda_is_available : bool;          (* torch.cuda.is_available() *)
}.

(** The value of the dict entry [name], [None] if there is none: of
    several entries with one name the last one written stays. *)
Fixpoint vars_lookup (vars : EnvVars) (name : string) : option (option string) :=
  match vars with
  | [] => None
  | (k, v) :: vars' =>
      match vars_lookup vars' name with
      | Some r => Some r
      | None => if bool_decide (k = name) then Some v else None
      end
  end.

(** [env_vars.get(name)] *)
Definition vars_get (vars : EnvVars) (name : string) : option string :=
  mjoin (vars_lookup vars name).

Definition environ_vars (env : Environ) : EnvVars :=
  (λ kv, (kv.1, Some kv.2)) <$> env.

Section Sources.
Context `{Externals}.

Definition Val : Type := PyVal Json.
Definition Kwargs : Type := list (string * Val).

(** [parse_env_vars]: the names are lower-cased unless matching is
    case-sensitive. *)
Definition parse_env_vars (cs : bool) (vars : EnvVars) : EnvVars :=
  if cs then vars else (λ kv, (str_lower kv.1, kv.2)) <$> vars.

Definition env_settings_vars (cfg : SettingsConfigDict) (w : World) : EnvVars :=
  parse_env_vars (case_sensitive cfg) (environ_vars (os_environ w)).

Definition dotenv_settings_vars (cfg : SettingsConfigDict) (w : World) : EnvVars :=
  match env_file cfg with
  | None => []
  | Some path => parse_env_vars (case_sensitive cfg) (default [] (env_files w !! path))
  end.

(** The variable name a field is looked up under (no prefix, no alias). *)
Definition field_env_name (cfg : SettingsConfigDict) (field : string) : string :=
  if case_sensitive cfg then field else str_lower field.

(** The argument of the constructor that is taken for a field. The names
    of arguments are matched with the names of fields the way the names of
    variables are: without regard to letter case, unless the class is
    case-sensitive. *)
Fixpoint kwargs_get (cfg : SettingsConfigDict) (kw : Kwargs) (field : string)
  : option Val :=
  match kw with
  | [] => None
  | (k, v) :: kw' =>
      if bool_decide (field_env_name cfg k = field_env_name cfg field) then Some v
      else kwargs_get cfg kw' field
  end.

(** [deep_update] at one key: two dicts are merged, otherwise the
    updating value replaces the other. *)
Definition is_dict (v : Val) : bool :=
  match v with PyStr _ => false | PyJson j => bool_decide (is_Some (json_dict j)) end.

Definition deep_update_value (low high : Val) : Val :=
  match low, high with
  | PyJson l, PyJson h => if is_dict low && is_dict high then PyJson (json_deep_update l h) else high
  | _, _ => high
  end.

Definition merge_value (low high : option Val) : option Val :=
  match low, high with
  | Some l, Some h => Some (deep_update_value l h)
  | None, Some h => Some h
  | _, None => low
  end.

Definition py_is_None (v : Val) : bool :=
  match v with PyStr _ => false | PyJson j => json_is_None j end.

(** What an environment source gives for a field of simple type. *)
Definition simple_field_value (cfg : SettingsConfigDict) (vars : EnvVars) (field : string)
  : option Val :=
  PyStr <$> vars_get vars (field_env_name cfg field).

(** The variables a field of complex type is read from: the one named
    like the field and those with the field's prefix. *)
Definition related_vars (env_name delim : string) (vars : EnvVars) : EnvVars :=
  List.filter
    (λ kv, bool_decide (kv.1 = env_name) || String.prefix (env_name +:+ delim) kv.1) vars.

(** What an environment source gives for a field of complex type: the
    variable is decoded as JSON; a value of [None] counts as no value. *)
Definition complex_field_value (cfg : SettingsConfigDict) (vars : EnvVars) (field : string)
  : result (option Val) :=
  let env_name := field_env_name cfg field in
  match env_nested_delimiter cfg with
  | None =>
      match vars_get vars env_name with
      | None => Ok None
      | Some s =>
          v ← of_option (json_loads s);
          Ok (if py_is_None v then None else Some v)
      end
  | Some delim =>
      match related_vars env_name delim vars with
      | [] => Ok None
      | rel => of_option (prepare_nested_value env_name delim rel)
      end
  end.

(** The sources in their order of priority: the arguments of the
    constructor, the environment, the env file. *)
Definition settings_simple (cfg : SettingsConfigDict) (w : World) (init : Kwargs)
    (field : string) : option Val :=
  merge_value
    (merge_value (simple_field_value cfg (dotenv_settings_vars cfg w) field)
                 (simple_field_value cfg (env_settings_vars cfg w) field))
    (kwargs_get cfg init field).

Definition settings_complex (cfg : SettingsConfigDict) (w : World) (init : Kwargs)
    (field : string) : result (option Val) :=
  env_v ← complex_field_value cfg (env_settings_vars cfg w) field;
  dotenv_v ← complex_field_value cfg (dotenv_settings_vars cfg w) field;
  Ok (merge_value (merge_value dotenv_v env_v) (kwargs_get cfg init field)).

(** [extra='forbid'] rejects an argument that is taken for no field; the
    other modes let it pass. *)
Definition check_extra (cfg : SettingsConfigDict) (fields : list string) (init : Kwargs)
  : result unit :=
  match extra cfg with
  | extra_forbid =>
      if forallb (λ kv, bool_decide (field_env_name cfg kv.1 ∈ field_env_name cfg <$> fields))
           init
      then Ok tt
      else Raise ConfigValidationError
  | _ => Ok tt
  end.

(** ** Field validation *)

Definition validate_str (v : Val) : result string :=
  match v with PyStr s => Ok s | PyJson _ => Raise ConfigValidationError end.

Definition validate_optional_str (v : Val) : result (option string) :=
  match v with
  | PyStr s => Ok (Some s)
  | PyJson j => if json_is_None j then Ok None else Raise ConfigValidationError
  end.

Definition validate_bool (v : Val) : result bool :=
  of_option (match v with PyStr s => str_bool s | PyJson j => json_bool j end).

Definition validate_str_set (v : Val) : result (gset string) :=
  match v with
  | PyStr _ => Raise ConfigValidationError
  | PyJson j => of_option (json_str_set j)
  end.

Definition validate_Device (v : Val) : result Device :=
  match v with
  | PyStr s => of_option (Device_of_value s)
  | PyJson _ => Raise ConfigValidationError
  end.

Definition validate_ComputeType (v : Val) : result ComputeType :=
  of_option (ComputeType_validate v).

Definition validate_WhisperModel (v : Val) : result WhisperModel :=
  of_option (WhisperModel_validate v).

(** A field takes its validated input, or its default without one. *)
Definition field_value {A} (validate : Val → result A) (dflt : A) (input : option Val)
  : result A :=
  match input with
  | Some v => validate v
  | None => Ok dflt
  end.

End Sources.

(** ** The settings classes *)

Section Config.
Context `{Externals}.

(** *** [DatabaseSettings] *)

Record DatabaseSettings := {
  DB_URL : string;
  DB_ECHO : bool;
}.

Definition DatabaseSettings_fields : list string := ["DB_URL"; "DB_ECHO"].

Definition DatabaseSettings_new (init : Kwargs) (w : World) : result DatabaseSettings :=
  let cfg := BaseSettings_model_config in
  _ ← check_extra cfg DatabaseSettings_fields init;
  url ← field_value validate_str "sqlite:///records.db" (settings_simple cfg w init "DB_URL");
  echo ← field_value validate_bool false (settings_simple cfg w init "DB_ECHO");
  Ok {| DB_URL := url; DB_ECHO := echo |}.

(** *** [WhisperSettings] *)

Record WhisperSettings := {
  HF_TOKEN : option string;
  WHISPER_MODEL : WhisperModel;
  DEFAULT_LANG : string;
  DEVICE : Device;
  COMPUTE_TYPE : ComputeType;
  AUDIO_EXTENSIONS : gset string;
  VIDEO_EXTENSIONS : gset string;
}.

Definition WhisperSettings_fields : list string :=
  ["HF_TOKEN"; "WHISPER_MODEL"; "DEFAULT_LANG"; "DEVICE"; "COMPUTE_TYPE";
   "AUDIO_EXTENSIONS"; "VIDEO_EXTENSIONS"].

(** The two default factories. *)
Definition DEVICE_default_factory (w : World) : Device :=
  if cuda_is_available w then cuda else cpu.

Definition COMPUTE_TYPE_default_factory (w : World) : ComputeType :=
  if cuda_is_available w then float16 else int8.

Definition AUDIO_EXTENSIONS_default : gset string :=
  {[ ".mp3"; ".wav"; ".awb"; ".aac"; ".ogg"; ".oga"; ".m4a"; ".wma"; ".amr" ]}.

Definition VIDEO_EXTENSIONS_default : gset string :=
  {[ ".mp4"; ".mov"; ".avi"; ".wmv"; ".mkv" ]}.

(** The computed field: a property, evaluated when it is read. *)
Definition ALLOWED_EXTENSIONS (self : WhisperSettings) : gset string :=
  AUDIO_EXTENSIONS self ∪ VIDEO_EXTENSIONS self.

(** The model validator, run after the fields are populated. *)
Definition validate_compute_type_for_cpu (self : WhisperSettings) : WhisperSettings :=
  if bool_decide (DEVICE self = cpu) && negb (bool_decide (COMPUTE_TYPE self = int8))
  then {| HF_TOKEN := HF_TOKEN self;
          WHISPER_MODEL := WHISPER_MODEL self;
          DEFAULT_LANG := DEFAULT_LANG self;
          DEVICE := DEVICE self;
          COMPUTE_TYPE := int8;
          AUDIO_EXTENSIONS := AUDIO_EXTENSIONS self;
          VIDEO_EXTENSIONS := VIDEO_EXTENSIONS self |}
  else self.

(** The fields as the sources and the defaults populate them. *)
Definition WhisperSettings_populate (init : Kwargs) (w : World) : result WhisperSettings :=
  let cfg := BaseSettings_model_config in
  audio_in ← settings_complex cfg w init "AUDIO_EXTENSIONS";
  video_in ← settings_complex cfg w init "VIDEO_EXTENSIONS";
  _ ← check_extra cfg WhisperSettings_fields init;
  token ← field_value validate_optional_str None (settings_simple cfg w init "HF_TOKEN");
  model ← field_value validate_WhisperModel tiny (settings_simple cfg w init "WHISPER_MODEL");
  lang ← field_value validate_str "en" (settings_simple cfg w init "DEFAULT_LANG");
  device ← field_value validate_Device (DEVICE_default_factory w)
             (settings_simple cfg w init "DEVICE");
  compute ← field_value validate_ComputeType (COMPUTE_TYPE_default_factory w)
              (settings_simple cfg w init "COMPUTE_TYPE");
  audio ← field_value validate_str_set AUDIO_EXTENSIONS_default audio_in;
  video ← field_value validate_str_set VIDEO_EXTENSIONS_default video_in;
  Ok {| HF_TOKEN := token; WHISPER_MODEL := model; DEFAULT_LANG := lang;
        DEVICE := device; COMPUTE_TYPE := compute;
        AUDIO_EXTENSIONS := audio; VIDEO_EXTENSIONS := video |}.

Definition WhisperSettings_new (init : Kwargs) (w : World) : result WhisperSettings :=
  self ← WhisperSettings_populate init w;
  Ok (validate_compute_type_for_cpu self).

(** *** [LoggingSettings] *)

Record LoggingSettings := {
  LOG_LEVEL : string;
  LOG_FORMAT : string;
  FILTER_WARNING : bool;
}.

Definition LoggingSettings_fields : list string :=
  ["LOG_LEVEL"; "LOG_FORMAT"; "FILTER_WARNING"].

Definition LoggingSettings_new (init : Kwargs) (w : World) : result LoggingSettings :=
  let cfg := BaseSettings_model_config in
  _ ← check_extra cfg LoggingSettings_fields init;
  level ← field_value validate_str "INFO" (settings_simple cfg w init "LOG_LEVEL");
  format ← field_value validate_str "text" (settings_simple cfg w init "LOG_FORMAT");
  filter_warning ← field_value validate_bool true (settings_simple cfg w init "FILTER_WARNING");
  Ok {| LOG_LEVEL := level; LOG_FORMAT := format; FILTER_WARNING := filter_warning |}.

(** *** [Settings] *)

Definition Settings_model_config : SettingsConfigDict := {|
  env_file := Some ".env";
  env_file_encoding := Some "utf-8";
  case_sensitive := true;
  extra := extra_ignore;
  env_nested_delimiter := Some "__";
|}.

Record Settings := {
  ENVIRONMENT : string;
  DEV : bool;
  database : DatabaseSettings;
  whisper : WhisperSettings;
  logging : LoggingSettings;
}.

(** The field validator of [ENVIRONMENT], run before the field's own
    validation on the value the sources supply, a [str]; with
    [validate_default], which [BaseSettings] sets, it runs on the default
    as well. *)
Definition normalize_environment (v : string) : string :=
  if str_nonempty v then str_lower v else "production".

(** The value the sources supply for [ENVIRONMENT]: the live variable,
    or without one the entry of the env file. *)
Definition ENVIRONMENT_input (w : World) : option string :=
  let cfg := Settings_model_config in
  let name := field_env_name cfg "ENVIRONMENT" in
  match vars_get (env_settings_vars cfg w) name with
  | Some s => Some s
  | None => vars_get (dotenv_settings_vars cfg w) name
  end.

(** A nested group is itself a settings class: given a dict it is
    constructed with the dict's items as arguments, without a value it
    is constructed by its default factory, the class itself, with none. *)
Definition nested_kwargs (input : option Val) : result Kwargs :=
  match input with
  | None => Ok []
  | Some (PyJson j) => of_option (json_dict j)
  | Some (PyStr _) => Raise ConfigValidationError
  end.

Definition nested_settings {A} (new : Kwargs → World → result A) (w : World)
    (input : option Val) : result A :=
  init ← nested_kwargs input;
  new init w.

(** [Settings()], as [get_settings] calls it, without arguments: the
    sources are read for every field, then the fields are validated in
    their order, each nested group by constructing it. *)
Definition Settings_new (w : World) : result Settings :=
  let cfg := Settings_model_config in
  database_in ← settings_complex cfg w [] "database";
  whisper_in ← settings_complex cfg w [] "whisper";
  logging_in ← settings_complex cfg w [] "logging";
  let environment := normalize_environment (default "production" (ENVIRONMENT_input w)) in
  dev ← field_value validate_bool false (settings_simple cfg w [] "DEV");
  db ← nested_settings DatabaseSettings_new w database_in;
  wh ← nested_settings WhisperSettings_new w whisper_in;
  lg ← nested_settings LoggingSettings_new w logging_in;
  Ok {| ENVIRONMENT := environment; DEV := dev;
        database := db; whisper := wh; logging := lg |}.

(** ** The cached accessor *)

(** The state of the process that [get_settings] touches: the [Settings]
    objects constructed so far, an object's identity being its index,
    and the entry of the [lru_cache] for the empty argument list. *)
Record Process := {
  objects : list Settings;
  cache : option nat;
}.

Definition Process_init : Process := {| objects := []; cache := None |}.

(** One call: a hit returns the cached object; a miss runs [Settings()]
    and caches the new object, or lets the exception through, in which
    case nothing is cached. *)
Definition get_settings (w : World) (p : Process) : Process * result nat :=
  match cache p with
  | Some id => (p, Ok id)
  | None =>
      match Settings_new w with
      | Ok s =>
          let id := List.length (objects p) in
          ({| objects := (objects p ++ [s])%list; cache := Some id |}, Ok id)
      | Raise e => (p, Raise e)
      end
  end.

(** A run of calls, each under the world of its moment. *)
Fixpoint get_settings_calls (ws : list World) (p : Process) : Process * list (result nat) :=
  match ws with
  | [] => (p, [])
  | w :: ws' =>
      let '(p1, r) := get_settings w p in
      let '(p2, rs) := get_settings_calls ws' p1 in
      (p2, r :: rs)
  end.

End Config.

(** ** Assignments and variations used in the statements *)

Section Variations.
Context `{Externals}.

(** [self.AUDIO_EXTENSIONS = exts] and [self.VIDEO_EXTENSIONS = exts] *)
Definition set_AUDIO_EXTENSIONS (self : WhisperSettings) (exts : gset string) : WhisperSettings :=
  {| HF_TOKEN := HF_TOKEN self; WHISPER_MODEL := WHISPER_MODEL self;
     DEFAULT_LANG := DEFAULT_LANG self; DEVICE := DEVICE self;
     COMPUTE_TYPE := COMPUTE_TYPE self;
     AUDIO_EXTENSIONS := exts; VIDEO_EXTENSIONS := VIDEO_EXTENSIONS self |}.

Definition set_VIDEO_EXTENSIONS (self : WhisperSettings) (exts : gset string) : WhisperSettings :=
  {| HF_TOKEN := HF_TOKEN self; WHISPER_MODEL := WHISPER_MODEL self;
     DEFAULT_LANG := DEFAULT_LANG self; DEVICE := DEVICE self;
     COMPUTE_TYPE := COMPUTE_TYPE self;
     AUDIO_EXTENSIONS := AUDIO_EXTENSIONS self; VIDEO_EXTENSIONS := exts |}.

(** The arguments [Settings()] constructs the nested group of the field
    [group] with. *)
Definition group_arguments (group : string) (w : World) : result Kwargs :=
  input ← settings_complex Settings_model_config w [] group;
  nested_kwargs input.


(** [name] is [field] in another letter case. *)
Definition differs_in_case_only (name field : string) : Prop :=
  name ≠ field ∧ ascii_lower name = ascii_lower field.

(** The fields of the three nested groups. *)
Definition group_fields : list string :=
  DatabaseSettings_fields ++ WhisperSettings_fields ++ LoggingSettings_fields.

(** Two worlds in which the nested groups find the same value for each of
    their fields, and the same answer of the GPU probe. *)
Definition same_group_inputs (w1 w2 : World) : Prop :=
  cuda_is_available w1 = cuda_is_available w2 ∧
  ∀ field, field ∈ group_fields →
    vars_get (env_settings_vars BaseSettings_model_config w1) (str_lower field)
    = vars_get (env_settings_vars BaseSettings_model_config w2) (str_lower field).

End Variations.

(** The world with another live environment, and with another content of
    the env file at [path]. *)
Definition with_environ (w : World) (env : Environ) : World :=
  {| os_environ := env; env_files := env_files w;
     cuda_is_available := cuda_is_available w |}.

Definition with_env_file (w : World) (path : string) (vars : EnvVars) : World :=
  {| os_environ := os_environ w; env_files := <[path := vars]> (env_files w);
     cuda_is_available := cuda_is_available w |}.

(** The entries of an env file other than those of [key]. *)
Definition vars_without (key : string) (vars : EnvVars) : EnvVars :=
  List.filter (λ kv, negb (bool_decide (kv.1 = key))) vars.

(** The names of the variables the settings classes read as fields. *)
Definition recognized_keys : list string :=
  ["DB_URL"; "DB_ECHO"; "HF_TOKEN"; "WHISPER_MODEL"; "DEFAULT_LANG"; "DEVICE";
   "COMPUTE_TYPE"; "LOG_LEVEL"; "LOG_FORMAT"; "FILTER_WARNING"; "ENVIRONMENT"; "DEV"].

(** The nested group that has the field [key]; none for the fields of
    [Settings] itself. *)
Definition field_group (key : string) : option string :=
  if existsb (String.eqb key) DatabaseSettings_fields then Some "database"
  else if existsb (String.eqb key) WhisperSettings_fields then Some "whisper"
  else if existsb (String.eqb key) LoggingSettings_fields then Some "logging"
  else None.

Section Held.
Context `{Externals}.

(** The field named [key] holds the value [v] that a source supplied, as
    the validation of the field leaves it: ENVIRONMENT normalized, and
    COMPUTE_TYPE coerced to int8 where the device is cpu. *)
Definition field_holds (s : Settings) (key : string) (v : Val) : Prop :=
  (key = "ENVIRONMENT" →
     ∃ e, validate_str v = Ok e ∧ ENVIRONMENT s = normalize_environment e)
  ∧ (key = "DEV" → validate_bool v = Ok (DEV s))
  ∧ (key = "DB_URL" → validate_str v = Ok (DB_URL (database s)))
  ∧ (key = "DB_ECHO" → validate_bool v = Ok (DB_ECHO (database s)))
  ∧ (key = "HF_TOKEN" → validate_optional_str v = Ok (HF_TOKEN (whisper s)))
  ∧ (key = "WHISPER_MODEL" → validate_WhisperModel v = Ok (WHISPER_MODEL (whisper s)))
  ∧ (key = "DEFAULT_LANG" → validate_str v = Ok (DEFAULT_LANG (whisper s)))
  ∧ (key = "DEVICE" → validate_Device v = Ok (DEVICE (whisper s)))
  ∧ (key = "COMPUTE_TYPE" →
       ∃ c, validate_ComputeType v = Ok c
            ∧ COMPUTE_TYPE (whisper s)
              = if bool_decide (DEVICE (whisper s) = cpu) then int8 else c)
  ∧ (key = "LOG_LEVEL" → validate_str v = Ok (LOG_LEVEL (logging s)))
  ∧ (key = "LOG_FORMAT" → validate_str v = Ok (LOG_FORMAT (logging s)))
  ∧ (key = "FILTER_WARNING" → validate_bool v = Ok (FILTER_WARNING (logging s))).

(** No other live variable is [key] in another letter case. *)
Definition no_case_variant (w : World) (key : string) : Prop :=
  ∀ name, name ≠ key → str_lower name = str_lower key →
    vars_lookup (environ_vars (os_environ w)) name = None.

(** What the live environment and what the env file give [Settings] for
    the nested group of the field [group]: the library's decoding of the
    variable named like the group and of those with the group's prefix. *)
Definition group_live_input (group : string) (w : World) : result (option Val) :=
  complex_field_value Settings_model_config
    (env_settings_vars Settings_model_config w) group.

Definition group_file_input (group : string) (w : World) : result (option Val) :=
  complex_field_value Settings_model_config
    (dotenv_settings_vars Settings_model_config w) group.

(** The value [v], given for a nested group, is a dict that gives the
    group the argument [a] for [field]. *)
Definition gives_argument (v : Val) (field : string) (a : Val) : Prop :=
  ∃ init, nested_kwargs (Some v) = Ok init
          ∧ kwargs_get BaseSettings_model_config init field = Some a.

End Held.

(** [msg] contains [sub]. *)
Definition contains (sub msg : string) : Prop :=
  ∃ pre post, msg = pre +:+ sub +:+ post.

(** The message names a missing NCCL symbol. *)
Definition has_marker (msg : string) : Prop :=
  contains "ncclGroupSimulateEnd" msg ∨ contains "undefined symbol" msg.

(** ** A sample of the externals

    Enough of the libraries to run the model on worlds in which every
    variable is of simple type: lower-casing is the ASCII one, the two
    enums have the members the module names, with their names as values,
    and no variable decodes as JSON. *)

Inductive SampleComputeType := sample_float16 | sample_int8.
Inductive SampleWhisperModel := sample_tiny.

Global Instance SampleComputeType_eq_dec : EqDecision SampleComputeType.
Proof. solve_decision. Defined.

Definition sample_str_bool (s : string) : option bool :=
  let l := ascii_lower s in
  if existsb (String.eqb l) ["1"; "on"; "t"; "true"; "y"; "yes"] then Some true
  else if existsb (String.eqb l) ["0"; "off"; "f"; "false"; "n"; "no"] then Some false
  else None.

Definition sample_ComputeType_validate (v : PyVal Empty_set) : option SampleComputeType :=
  match v with
  | PyStr s =>
      if String.eqb s "float16" then Some sample_float16
      else if String.eqb s "int8" then Some sample_int8
      else None
  | PyJson j => match j with end
  end.

Definition sample_WhisperModel_validate (v : PyVal Empty_set) : option SampleWhisperModel :=
  match v with
  | PyStr s => if String.eqb s "tiny" then Some sample_tiny else None
  | PyJson j => match j with end
  end.

Definition sample_externals : Externals := {|
  str_lower := ascii_lower;
  str_lower_ascii := λ s _, eq_refl;
  Json := Empty_set;
  json_loads := λ _, None;
  json_is_None := λ j, match j with end;
  json_dict := λ j, match j with end;
  json_deep_update := λ j _, j;
  str_bool := sample_str_bool;
  json_bool := λ j, match j with end;
  json_str_set := λ j, match j with end;
  prepare_nested_value := λ _ _ _, None;
  ComputeType := SampleComputeType;
  float16 := sample_float16;
  int8 := sample_int8;
  ComputeType_eq_dec := SampleComputeType_eq_dec;
  ComputeType_validate := sample_ComputeType_validate;
  WhisperModel := SampleWhisperModel;
  tiny := sample_tiny;
  WhisperModel_validate := sample_WhisperModel_validate;
|}.

(** A machine without a GPU and with an empty environment. *)
Definition bare_world : World :=
  {| os_environ := []; env_files := ∅; cuda_is_available := false |}.

(** ** The legacy [Config] class and the load of the module *)

(** The attributes the body of [Config] binds, lines 200-210. *)
Module Config.
Record t `{Externals} := {
  LANG : string;
  HF_TOKEN : option string;
  WHISPER_MODEL : WhisperModel;
  DEVICE : Device;
  COMPUTE_TYPE : ComputeType;
  ENVIRONMENT : string;
  LOG_LEVEL : string;
  AUDIO_EXTENSIONS : gset string;
  VIDEO_EXTENSIONS : gset string;
  ALLOWED_EXTENSIONS : gset string;
  DB_URL : string;
}.
End Config.

Section Legacy.
Context `{Externals}.

(** The body of the class, given the object [_settings] refers to: each
    attribute is read from the object once, as the class is defined. *)
Definition Config_class (_settings : Settings) : Config.t := {|
  Config.LANG := DEFAULT_LANG (whisper _settings);
  Config.HF_TOKEN := HF_TOKEN (whisper _settings);
  Config.WHISPER_MODEL := WHISPER_MODEL (whisper _settings);
  Config.DEVICE := DEVICE (whisper _settings);
  Config.COMPUTE_TYPE := COMPUTE_TYPE (whisper _settings);
  Config.ENVIRONMENT := ENVIRONMENT _settings;
  Config.LOG_LEVEL := LOG_LEVEL (logging _settings);
  Config.AUDIO_EXTENSIONS := AUDIO_EXTENSIONS (whisper _settings);
  Config.VIDEO_EXTENSIONS := VIDEO_EXTENSIONS (whisper _settings);
  Config.ALLOWED_EXTENSIONS := ALLOWED_EXTENSIONS (whisper _settings);
  Config.DB_URL := DB_URL (database _settings);
|}.

(** How the execution of the module ends: with the exception of the
    import guard, with the exception of [Settings()], or with the module
    loaded, which leaves the environment as the fallback made it, the
    process with the cache of [get_settings], and the [Config] class built
    from the object of identity [id]. [NoObject] stands for a store that
    lacks the object [get_settings] returned. *)
Inductive ModuleLoad :=
  | ImportFailed (e : Exception)
  | SettingsFailed (e : ConstructionError)
  | Loaded (env : Environ) (p : Process) (id : nat) (config : Config.t)
  | NoObject.

(** The module from its first line to its last, in a process that starts
    under the world [w]: the fallback and the import, then the class
    definitions, then [Config], whose body makes the first call of
    [get_settings]. *)
Definition load_module (h : Host) (w : World) (import_torch : option Exception)
  : ModuleLoad :=
  match load_torch h (os_environ w) import_torch with
  | inl e => ImportFailed e
  | inr env =>
      match get_settings (with_environ w env) Process_init with
      | (p, Ok id) =>
          match objects p !! id with
          | Some _settings => Loaded env p id (Config_class _settings)
          | None => NoObject
          end
      | (_, Raise e) => SettingsFailed e
      end
  end.

(** The name of a variable that no field of [Settings] and of its groups
    is read from: it is neither ENVIRONMENT nor DEV, it addresses no
    group, and it is no field of a group in any letter case. *)
Definition unused_name (name : string) : Prop :=
  name ≠ "ENVIRONMENT" ∧ name ≠ "DEV"
  ∧ (∀ group, group ∈ ["database"; "whisper"; "logging"] →
       bool_decide (name = group) || String.prefix (group +:+ "__") name = false)
  ∧ (∀ f, f ∈ group_fields → str_lower name ≠ str_lower f).

(** The same for a name of ASCII characters, as a test. *)
Definition ascii_name_unused (name : string) : bool :=
  str_is_ascii name
  && negb (bool_decide (name ∈ ["ENVIRONMENT"; "DEV"]))
  && forallb (λ group, negb (bool_decide (name = group)
                             || String.prefix (group +:+ "__") name))
       ["database"; "whisper"; "logging"]
  && negb (bool_decide (ascii_lower name ∈ ascii_lower <$> group_fields)).

(** What [Settings()] gives when no source supplies a value. *)
Definition Settings_defaults (w : World) : Settings := {|
  ENVIRONMENT := "production";
  DEV := false;
  database := {| DB_URL := "sqlite:///records.db"; DB_ECHO := false |};
  whisper := {| HF_TOKEN := None; WHISPER_MODEL := tiny; DEFAULT_LANG := "en";
                DEVICE := if cuda_is_available w then cuda else cpu;
                COMPUTE_TYPE := if cuda_is_available w then float16 else int8;
                AUDIO_EXTENSIONS := AUDIO_EXTENSIONS_default;
                VIDEO_EXTENSIONS := VIDEO_EXTENSIONS_default |};
  logging := {| LOG_LEVEL := "INFO"; LOG_FORMAT := "text"; FILTER_WARNING := true |};
|}.

(** The env file [Settings] reads, empty when there is none. *)
Definition env_file_vars (w : World) : EnvVars :=
  default [] (env_files w !! ".env").

End Legacy.

(** ** A sample of the externals with nested addressing

    As [sample_externals], with dicts of [str] values for what the nested
    delimiter builds: a variable [GROUP__KEY=value] gives the group the
    argument [KEY] with that value. A variable named like the group
    itself still does not decode. *)

Fixpoint str_drop (n : nat) (s : string) : string :=
  match n, s with
  | S n', String _ s' => str_drop n' s'
  | _, _ => s
  end.

Definition nested_sample_prepare (env_name delim : string) (rel : EnvVars)
  : option (option (PyVal (list (string * string)))) :=
  if existsb (λ kv, String.eqb kv.1 env_name) rel then None
  else Some (Some (PyJson
         (omap (λ kv, v ← kv.2; Some (str_drop (String.length (env_name +:+ delim)) kv.1, v))
               rel))).

Definition nested_sample_ComputeType_validate (v : PyVal (list (string * string)))
  : option SampleComputeType :=
  match v with
  | PyStr s =>
      if String.eqb s "float16" then Some sample_float16
      else if String.eqb s "int8" then Some sample_int8
      else None
  | PyJson _ => None
  end.

Definition nested_sample_WhisperModel_validate (v : PyVal (list (string * string)))
  : option SampleWhisperModel :=
  match v with
  | PyStr s => if String.eqb s "tiny" then Some sample_tiny else None
  | PyJson _ => None
  end.

Definition nested_sample_externals : Externals := {|
  str_lower := ascii_lower;
  str_lower_ascii := λ s _, eq_refl;
  Json := list (string * string);
  json_loads := λ _, None;
  json_is_None := λ _, false;
  json_dict := λ j, Some ((λ kv, (kv.1, PyStr kv.2)) <$> j);
  json_deep_update := λ low high, high ++ low;
  str_bool := sample_str_bool;
  json_bool := λ _, None;
  json_str_set := λ _, None;
  prepare_nested_value := nested_sample_prepare;
  ComputeType := SampleComputeType;
  float16 := sample_float16;
  int8 := sample_int8;
  ComputeType_eq_dec := SampleComputeType_eq_dec;
  ComputeType_validate := nested_sample_ComputeType_validate;
  WhisperModel := SampleWhisperModel;
  tiny := sample_tiny;
  WhisperModel_validate := nested_sample_WhisperModel_validate;
|}.

(** * Properties *)

(** ** Strings *)

Lemma append_cons (c : ascii) (s t : string) :
  String c s +:+ t = String c (s +:+ t).
Proof. reflexivity. Qed.

Lemma append_nil (t : string) : "" +:+ t = t.
Proof. reflexivity. Qed.

Lemma append_assoc (a b c : string) : (a +:+ b) +:+ c = a +:+ (b +:+ c).
Proof. induction a as [|x a IH]; [done|]. by rewrite !append_cons, IH. Qed.

Lemma prefix_true_iff (p s : string) :
  String.prefix p s = true ↔ ∃ t, s = p +:+ t.
Proof.
  revert s. induction p as [|c p IH]; intros s.
  - split; [intros _; by exists s | by destruct s].
  - destruct s as [|d s]; simpl.
    + split; [done | intros [t Ht]; discriminate].
    + setoid_rewrite append_cons.
      destruct (Ascii.ascii_dec c d) as [->|Hne].
      * rewrite IH. split; intros [t Ht]; exists t; congruence.
      * split; [done | intros [t Ht]; congruence].
Qed.

Lemma str_contains_iff (sub s : string) :
  str_contains sub s = true ↔ contains sub s.
Proof.
  unfold contains. induction s as [|c s IH]; cbn [str_contains].
  - rewrite orb_false_r, prefix_true_iff. split.
    + intros [t Ht]. by exists "", t.
    + intros [[|d pre] [post Hs]]; [by exists post | discriminate].
  - rewrite orb_true_iff, prefix_true_iff, IH. split.
    + intros [[t Ht] | (pre & post & Hs)].
      * by exists "", t.
      * exists (String c pre), post. by rewrite append_cons, Hs.
    + intros [[|d pre] [post Hs]].
      * left. by exists post.
      * right. exists pre, post. rewrite append_cons in Hs. congruence.
Qed.

Lemma nccl_marker_iff (msg : string) :
  nccl_marker msg = true ↔ has_marker msg.
Proof.
  unfold nccl_marker, has_marker.
  by rewrite orb_true_iff, !str_contains_iff.
Qed.

Lemma contains_app_r (sub a b : string) : contains sub b → contains sub (a +:+ b).
Proof.
  intros (pre & post & ->). exists (a +:+ pre), post.
  by rewrite append_assoc.
Qed.

Lemma contains_app_head (sub b : string) : contains sub (sub +:+ b).
Proof. by exists "", b. Qed.

Lemma contains_app_mid (sub a b : string) : contains sub (a +:+ sub +:+ b).
Proof. by exists a, b. Qed.

(** ** The guard around the import *)

(** C8, as the module has it. When [import torch] raises an ImportError,
    OSError or RuntimeError whose message contains one of the two markers,
    the load fails with an ImportError whose cause is the original exception
    and whose message carries the original message, the explanation, and
    the values of LD_PRELOAD and LD_LIBRARY_PATH at that moment (the text
    "not set" for a variable that is absent). Every other failure of the
    import, one without a marker or one of another class, leaves the module
    as the very exception that was raised. *)
Theorem import_guard_descriptive_or_unchanged
    (h : Host) (env0 : Environ) (e : Exception) :
  let env := preload_fallback h env0 in
  let ld_preload := environ_get_default env "LD_PRELOAD" "not set" in
  let ld_library_path := environ_get_default env "LD_LIBRARY_PATH" "not set" in
  (guard_catches (exc_class e) = true → has_marker (exc_str e) →
     ∃ e', load_torch h env0 (Some e) = inl e' ∧
       exc_class e' = ImportError ∧
       exc_cause e' = Some e ∧
       exc_str e' = nccl_message (exc_str e) ld_preload ld_library_path ∧
       contains (exc_str e) (exc_str e') ∧
       contains ("  LD_PRELOAD: " +:+ ld_preload +:+ nl) (exc_str e') ∧
       contains ("  LD_LIBRARY_PATH: " +:+ ld_library_path +:+ nl) (exc_str e') ∧
       contains "PyTorch 2.8+ requires NCCL 2.18+" (exc_str e'))
  ∧ (guard_catches (exc_class e) = false ∨ ¬ has_marker (exc_str e) →
     load_torch h env0 (Some e) = inl e).
Proof.
  intros env ld_preload ld_library_path. split.
  - intros Hc Hm. apply nccl_marker_iff in Hm.
    exists (import_guard env e). unfold load_torch, import_guard.
    fold env. rewrite Hc, Hm. cbn [exc_class exc_cause exc_str].
    fold ld_preload ld_library_path.
    repeat split; unfold nccl_message.
    + apply contains_app_mid.
    + do 8 apply contains_app_r.
      eexists "", _. rewrite append_nil, !append_assoc. reflexivity.
    + do 11 apply contains_app_r.
      eexists "", _. rewrite append_nil, !append_assoc. reflexivity.
    + do 3 apply contains_app_r.
      by exists "This usually indicates that ", (" with the " +:+
        "'ncclGroupSimulateEnd' symbol." +:+ nl +:+
        "Diagnostic information:" +:+ nl +:+
        "  LD_PRELOAD: " +:+ ld_preload +:+ nl +:+
        "  LD_LIBRARY_PATH: " +:+ ld_library_path +:+ nl +:+
        "  Python attempted to set LD_PRELOAD but it may be too late." +:+ nl +:+
        "Please ensure the startup script correctly sets LD_PRELOAD to a compatible NCCL library.").
  - intros Hn. unfold load_torch, import_guard. fold env.
    destruct (guard_catches (exc_class e)); [|done].
    destruct (nccl_marker (exc_str e)) eqn:Hm; [|done].
    apply nccl_marker_iff in Hm. by destruct Hn.
Qed.

(** ** Construction results *)

(** Splits a successful run of binds into its successful steps. *)
Ltac result_inv H :=
  unfold mbind, result_bind in H;
  repeat match type of H with
    | context [match ?m with Ok _ => _ | Raise _ => _ end] =>
        let E := fresh "E" in destruct m eqn:E; [|discriminate H]
    end;
  try (injection H as H).

Lemma raise_unique {A} (e : ConstructionError) : @Raise A e = Raise ConfigValidationError.
Proof. by destruct e. Qed.

Lemma of_option_Ok {A} (o : option A) (a : A) : of_option o = Ok a ↔ o = Some a.
Proof. destruct o; simpl; split; congruence. Qed.

Section WhisperProperties.
Context `{Externals}.

Lemma validate_compute_type_for_cpu_fields (self : WhisperSettings) :
  let self' := validate_compute_type_for_cpu self in
  HF_TOKEN self' = HF_TOKEN self ∧
  WHISPER_MODEL self' = WHISPER_MODEL self ∧
  DEFAULT_LANG self' = DEFAULT_LANG self ∧
  DEVICE self' = DEVICE self ∧
  AUDIO_EXTENSIONS self' = AUDIO_EXTENSIONS self ∧
  VIDEO_EXTENSIONS self' = VIDEO_EXTENSIONS self.
Proof.
  unfold validate_compute_type_for_cpu.
  by destruct (bool_decide (DEVICE self = cpu) && negb (bool_decide (COMPUTE_TYPE self = int8))).
Qed.

Lemma validate_compute_type_for_cpu_compute (self : WhisperSettings) :
  COMPUTE_TYPE (validate_compute_type_for_cpu self)
  = if bool_decide (DEVICE self = cpu) then int8 else COMPUTE_TYPE self.
Proof.
  unfold validate_compute_type_for_cpu.
  destruct (bool_decide (DEVICE self = cpu)); simpl; [|done].
  destruct (bool_decide (COMPUTE_TYPE self = int8)) eqn:E; simpl; [|done].
  by apply bool_decide_eq_true in E.
Qed.

Lemma WhisperSettings_new_populate (init : Kwargs) (w : World) (self : WhisperSettings) :
  WhisperSettings_new init w = Ok self ↔
  ∃ populated, WhisperSettings_populate init w = Ok populated
               ∧ self = validate_compute_type_for_cpu populated.
Proof.
  unfold WhisperSettings_new, mbind, result_bind.
  destruct (WhisperSettings_populate init w) as [p|e]; split.
  - intros [= <-]. by exists p.
  - intros (p' & [= <-] & ->). done.
  - done.
  - intros (p' & [=] & _).
Qed.

(** C1. A WhisperSettings whose device is cpu has the compute type int8,
    whatever compute type was supplied: once the fields are populated the
    model validator replaces the compute type and touches no other field,
    and it never makes the construction fail. *)
Theorem cpu_forces_int8 (init : Kwargs) (w : World) (populated : WhisperSettings) :
  WhisperSettings_populate init w = Ok populated →
  WhisperSettings_new init w = Ok (validate_compute_type_for_cpu populated)
  ∧ (∀ self, WhisperSettings_new init w = Ok self →
       DEVICE self = cpu → COMPUTE_TYPE self = int8)
  ∧ (let self := validate_compute_type_for_cpu populated in
     HF_TOKEN self = HF_TOKEN populated ∧
     WHISPER_MODEL self = WHISPER_MODEL populated ∧
     DEFAULT_LANG self = DEFAULT_LANG populated ∧
     DEVICE self = DEVICE populated ∧
     AUDIO_EXTENSIONS self = AUDIO_EXTENSIONS populated ∧
     VIDEO_EXTENSIONS self = VIDEO_EXTENSIONS populated ∧
     COMPUTE_TYPE self
     = if bool_decide (DEVICE populated = cpu) then int8 else COMPUTE_TYPE populated).
Proof.
  intros Hp. split; [|split].
  - apply WhisperSettings_new_populate. by exists populated.
  - intros self Hs Hd. apply WhisperSettings_new_populate in Hs as (p & Hp' & ->).
    rewrite validate_compute_type_for_cpu_compute.
    destruct (validate_compute_type_for_cpu_fields p) as (_ & _ & _ & Hdev & _).
    rewrite Hdev in Hd. by rewrite bool_decide_eq_true_2.
  - cbv zeta.
    destruct (validate_compute_type_for_cpu_fields populated) as (? & ? & ? & ? & ? & ?).
    repeat split; try done. apply validate_compute_type_for_cpu_compute.
Qed.

(** C2. For every WhisperSettings the allowed extensions are the union of
    the audio and the video extensions: the value is computed from the two
    fields whenever it is read, so it follows an assignment to either of
    them, and the instance holds no field of its own for it. *)
Theorem allowed_extensions_is_union (self : WhisperSettings) :
  ALLOWED_EXTENSIONS self = AUDIO_EXTENSIONS self ∪ VIDEO_EXTENSIONS self
  ∧ (∀ ext, ext ∈ ALLOWED_EXTENSIONS self
            ↔ ext ∈ AUDIO_EXTENSIONS self ∨ ext ∈ VIDEO_EXTENSIONS self)
  ∧ (∀ exts, ALLOWED_EXTENSIONS (set_AUDIO_EXTENSIONS self exts)
             = exts ∪ VIDEO_EXTENSIONS self)
  ∧ (∀ exts, ALLOWED_EXTENSIONS (set_VIDEO_EXTENSIONS self exts)
             = AUDIO_EXTENSIONS self ∪ exts).
Proof.
  unfold ALLOWED_EXTENSIONS. repeat split; try done; simpl; set_solver.
Qed.

Lemma field_value_default {A} (validate : Val → result A) (dflt a : A) :
  field_value validate dflt None = Ok a → a = dflt.
Proof. simpl. congruence. Qed.

(** C3. Without a DEVICE supplied, the device is cuda exactly when the
    probe reports a GPU at construction, and cpu otherwise. Without a
    COMPUTE_TYPE supplied, the compute type is populated with float16 when
    a GPU is available and with int8 otherwise, and that default is what
    the instance holds whenever its device is cuda or was defaulted too. *)
Theorem device_and_compute_type_defaults
    (init : Kwargs) (w : World) (populated : WhisperSettings) :
  WhisperSettings_populate init w = Ok populated →
  let cfg := BaseSettings_model_config in
  let self := validate_compute_type_for_cpu populated in
  let default_compute := if cuda_is_available w then float16 else int8 in
  WhisperSettings_new init w = Ok self
  ∧ (settings_simple cfg w init "DEVICE" = None →
       (DEVICE self = cuda ↔ cuda_is_available w = true)
       ∧ (DEVICE self = cpu ↔ cuda_is_available w = false))
  ∧ (settings_simple cfg w init "COMPUTE_TYPE" = None →
       COMPUTE_TYPE populated = default_compute
       ∧ (DEVICE self = cuda → COMPUTE_TYPE self = default_compute)
       ∧ (settings_simple cfg w init "DEVICE" = None →
            COMPUTE_TYPE self = default_compute)).
Proof.
  intros Hp cfg self default_compute.
  assert (Hnew : WhisperSettings_new init w = Ok self).
  { apply WhisperSettings_new_populate. by exists populated. }
  destruct (validate_compute_type_for_cpu_fields populated) as (_ & _ & _ & Hdev & _).
  fold self in Hdev.
  pose proof (validate_compute_type_for_cpu_compute populated) as Hct. fold self in Hct.
  unfold WhisperSettings_populate in Hp. result_inv Hp. subst populated.
  cbn [DEVICE COMPUTE_TYPE] in *.
  split; [done|]. split.
  - intros Hnone. fold cfg in E5. rewrite Hnone in E5.
    apply field_value_default in E5. rewrite Hdev, E5.
    unfold DEVICE_default_factory. by destruct (cuda_is_available w).
  - intros Hnone. fold cfg in E6. rewrite Hnone in E6.
    apply field_value_default in E6.
    assert (Hc : a6 = default_compute) by done.
    split; [done|]. rewrite Hct. split.
    + intros Hcuda. rewrite Hdev in Hcuda. by rewrite bool_decide_eq_false_2 by congruence.
    + intros Hnone'. fold cfg in E5. rewrite Hnone' in E5.
      apply field_value_default in E5. rewrite E5, Hc.
      unfold DEVICE_default_factory, default_compute.
      by destruct (cuda_is_available w).
Qed.

End WhisperProperties.

Section SettingsProperties.
Context `{Externals}.

(** *** The cached accessor *)

Lemma get_settings_hit (w : World) (p : Process) (id : nat) :
  cache p = Some id → get_settings w p = (p, Ok id).
Proof. unfold get_settings. by intros ->. Qed.

Lemma get_settings_calls_hit (ws : list World) (p : Process) (id : nat) :
  cache p = Some id →
  get_settings_calls ws p = (p, replicate (List.length ws) (Ok id)).
Proof.
  intros Hc. induction ws as [|w ws IH]; simpl; [done|].
  by rewrite (get_settings_hit _ _ _ Hc), IH.
Qed.

Lemma get_settings_miss (w : World) (p : Process) :
  cache p = None →
  get_settings w p =
    match Settings_new w with
    | Ok s => ({| objects := objects p ++ [s]; cache := Some (List.length (objects p)) |},
               Ok (List.length (objects p)))
    | Raise e => (p, Raise e)
    end.
Proof. unfold get_settings. by intros ->. Qed.

(** C4. The first call of [get_settings] constructs the Settings object,
    one that did not exist before, and every later call, whatever the
    environment has become, returns the identity of that same object and
    constructs nothing: two calls in sequence return one instance. *)
Theorem get_settings_returns_cached_instance
    (w : World) (p p1 : Process) (id : nat) :
  cache p = None →
  get_settings w p = (p1, Ok id) →
  (∃ s, Settings_new w = Ok s ∧ objects p !! id = None
        ∧ objects p1 = objects p ++ [s] ∧ objects p1 !! id = Some s)
  ∧ (∀ w', get_settings w' p1 = (p1, Ok id))
  ∧ (∀ w', get_settings_calls [w; w'] p = (p1, [Ok id; Ok id]))
  ∧ (∀ later, get_settings_calls later p1
              = (p1, replicate (List.length later) (Ok id))).
Proof.
  intros Hc Hg. rewrite (get_settings_miss _ _ Hc) in Hg.
  destruct (Settings_new w) as [s|e] eqn:Hs; [|congruence].
  injection Hg as <- <-. cbn [objects cache].
  assert (Hhit : ∀ w', get_settings w'
            {| objects := objects p ++ [s]; cache := Some (List.length (objects p)) |}
          = ({| objects := objects p ++ [s]; cache := Some (List.length (objects p)) |},
             Ok (List.length (objects p)))).
  { intros w'. by apply get_settings_hit. }
  split; [|split; [|split]].
  - exists s. split; [done|]. split; [|split; [done|]].
    + by apply lookup_ge_None_2.
    + rewrite lookup_app_r by done. by rewrite Nat.sub_diag.
  - done.
  - intros w'. cbn [get_settings_calls].
    rewrite (get_settings_miss _ _ Hc), Hs. by rewrite Hhit.
  - intros later. by apply get_settings_calls_hit.
Qed.

(** *** Enum-typed fields *)



Lemma Settings_new_whisper (w : World) (s : Settings) :
  Settings_new w = Ok s →
  ∃ init, group_arguments "whisper" w = Ok init
          ∧ WhisperSettings_new init w = Ok (whisper s).
Proof.
  intros Hs. unfold Settings_new in Hs. result_inv Hs. subst s. cbn [whisper].
  unfold nested_settings in *. unfold group_arguments.
  unfold mbind, result_bind in *. rewrite E0.
  destruct (nested_kwargs a0) as [init|]; [|discriminate]. by exists init.
Qed.

Lemma Settings_new_database (w : World) (s : Settings) :
  Settings_new w = Ok s →
  ∃ init, group_arguments "database" w = Ok init
          ∧ DatabaseSettings_new init w = Ok (database s).
Proof.
  intros Hs. unfold Settings_new in Hs. result_inv Hs. subst s. cbn [database].
  unfold nested_settings in *. unfold group_arguments.
  unfold mbind, result_bind in *. rewrite E.
  destruct (nested_kwargs a) as [init|]; [|discriminate]. by exists init.
Qed.

Lemma Settings_new_logging (w : World) (s : Settings) :
  Settings_new w = Ok s →
  ∃ init, group_arguments "logging" w = Ok init
          ∧ LoggingSettings_new init w = Ok (logging s).
Proof.
  intros Hs. unfold Settings_new in Hs. result_inv Hs. subst s. cbn [logging].
  unfold nested_settings in *. unfold group_arguments.
  unfold mbind, result_bind in *. rewrite E1.
  destruct (nested_kwargs a1) as [init|]; [|discriminate]. by exists init.
Qed.


(** *** The environment name *)

Lemma ENVIRONMENT_input_sources (w : World) :
  settings_simple Settings_model_config w [] "ENVIRONMENT" = PyStr <$> ENVIRONMENT_input w.
Proof.
  unfold settings_simple, ENVIRONMENT_input, simple_field_value. cbn [kwargs_get].
  destruct (vars_get (env_settings_vars _ w) _); simpl;
    by destruct (vars_get (dotenv_settings_vars _ w) _).
Qed.

Lemma Settings_new_ENVIRONMENT (w : World) (s : Settings) :
  Settings_new w = Ok s →
  ENVIRONMENT s = normalize_environment (default "production" (ENVIRONMENT_input w)).
Proof. intros Hs. unfold Settings_new in Hs. result_inv Hs. by subst s. Qed.

Lemma str_lower_production : str_lower "production" = "production".
Proof. by rewrite str_lower_ascii. Qed.

(** C6. The environment name a Settings holds is the lower-case form of
    the ENVIRONMENT value supplied, for every value that is not empty, so
    "Production" is held as "production"; and it is "production" when no
    value is supplied. *)
Theorem environment_is_lowercased (w : World) (s : Settings) :
  Settings_new w = Ok s →
  (∀ v, ENVIRONMENT_input w = Some v → v ≠ "" → ENVIRONMENT s = str_lower v)
  ∧ (ENVIRONMENT_input w = Some "Production" → ENVIRONMENT s = "production")
  ∧ (ENVIRONMENT_input w = None → ENVIRONMENT s = "production").
Proof.
  intros Hs. rewrite (Settings_new_ENVIRONMENT _ _ Hs). split; [|split].
  - intros v -> Hv. simpl. by destruct v.
  - intros ->. simpl. unfold normalize_environment. simpl. by rewrite str_lower_ascii.
  - intros ->. simpl. unfold normalize_environment. simpl. apply str_lower_production.
Qed.

(** C10. An ENVIRONMENT value that is supplied but empty is replaced by
    "production", as if the variable were absent: the Settings holds
    "production", not the empty string. *)
Theorem empty_environment_is_production (w : World) (s : Settings) :
  Settings_new w = Ok s →
  ENVIRONMENT_input w = Some "" →
  ENVIRONMENT s = "production" ∧ ENVIRONMENT s ≠ "".
Proof.
  intros Hs Hin. rewrite (Settings_new_ENVIRONMENT _ _ Hs), Hin. by simpl.
Qed.

End SettingsProperties.

(** ** Which variables a construction depends on *)

Lemma vars_lookup_without (key name : string) (vars : EnvVars) :
  name ≠ key → vars_lookup (vars_without key vars) name = vars_lookup vars name.
Proof.
  intros Hne. induction vars as [|[k v] vars IH]; [done|].
  unfold vars_without in *. cbn [List.filter vars_lookup fst].
  destruct (bool_decide_reflect (k = key)) as [->|Hk]; cbn [negb vars_lookup].
  - rewrite IH. destruct (vars_lookup vars name); [done|].
    by rewrite bool_decide_eq_false_2 by congruence.
  - by rewrite IH.
Qed.

Lemma vars_get_without (key name : string) (vars vars' : EnvVars) :
  name ≠ key → vars_without key vars = vars_without key vars' →
  vars_get vars name = vars_get vars' name.
Proof.
  intros Hne Heq. unfold vars_get.
  by rewrite <- (vars_lookup_without key name vars), Heq, vars_lookup_without.
Qed.

Lemma vars_lookup_app (l1 l2 : EnvVars) (name : string) :
  vars_lookup (l1 ++ l2) name
  = match vars_lookup l2 name with Some r => Some r | None => vars_lookup l1 name end.
Proof.
  induction l1 as [|[k v] l1 IH]; cbn [app vars_lookup].
  - by destruct (vars_lookup l2 name).
  - rewrite IH. by destruct (vars_lookup l2 name).
Qed.

Lemma vars_get_insert_other (l1 l2 : EnvVars) (k name : string) (v : option string) :
  k ≠ name → vars_get (l1 ++ (k, v) :: l2) name = vars_get (l1 ++ l2) name.
Proof.
  intros Hne. unfold vars_get. rewrite !vars_lookup_app. cbn [vars_lookup].
  destruct (vars_lookup l2 name); [done|].
  by rewrite bool_decide_eq_false_2.
Qed.

Section Dependence.
Context `{Externals}.

Lemma related_vars_without (key env_name delim : string) (vars : EnvVars) :
  bool_decide (key = env_name) || String.prefix (env_name +:+ delim) key = false →
  related_vars env_name delim (vars_without key vars) = related_vars env_name delim vars.
Proof.
  intros Hun. induction vars as [|[k v] vars IH]; [done|].
  unfold related_vars, vars_without in *. cbn [List.filter fst].
  destruct (bool_decide_reflect (k = key)) as [->|Hk]; cbn [negb List.filter fst].
  - by rewrite Hun.
  - by rewrite IH.
Qed.

Lemma related_vars_insert (k env_name delim : string) (v : option string) (l1 l2 : EnvVars) :
  bool_decide (k = env_name) || String.prefix (env_name +:+ delim) k = false →
  related_vars env_name delim (l1 ++ (k, v) :: l2) = related_vars env_name delim (l1 ++ l2).
Proof.
  intros Hun. unfold related_vars. rewrite !List.filter_app. cbn [List.filter fst].
  by rewrite Hun.
Qed.

Lemma field_env_name_base (field : string) :
  field_env_name BaseSettings_model_config field = str_lower field.
Proof. reflexivity. Qed.

Lemma dotenv_settings_vars_base (w : World) :
  dotenv_settings_vars BaseSettings_model_config w = [].
Proof. reflexivity. Qed.

Lemma settings_simple_base_congr (w1 w2 : World) (init : Kwargs) (field : string) :
  same_group_inputs w1 w2 → field ∈ group_fields →
  settings_simple BaseSettings_model_config w1 init field
  = settings_simple BaseSettings_model_config w2 init field.
Proof.
  intros [_ Hv] Hf. unfold settings_simple, simple_field_value.
  by rewrite !dotenv_settings_vars_base, !field_env_name_base, (Hv _ Hf).
Qed.

Lemma settings_complex_base_congr (w1 w2 : World) (init : Kwargs) (field : string) :
  same_group_inputs w1 w2 → field ∈ group_fields →
  settings_complex BaseSettings_model_config w1 init field
  = settings_complex BaseSettings_model_config w2 init field.
Proof.
  intros [_ Hv] Hf. unfold settings_complex, complex_field_value.
  cbn [env_nested_delimiter BaseSettings_model_config].
  by rewrite !dotenv_settings_vars_base, !field_env_name_base, (Hv _ Hf).
Qed.

Ltac group_field := unfold group_fields; cbn; set_solver.

Lemma DatabaseSettings_new_congr (w1 w2 : World) (init : Kwargs) :
  same_group_inputs w1 w2 → DatabaseSettings_new init w1 = DatabaseSettings_new init w2.
Proof.
  intros Hs. unfold DatabaseSettings_new.
  rewrite (settings_simple_base_congr w1 w2 init "DB_URL" Hs) by group_field.
  rewrite (settings_simple_base_congr w1 w2 init "DB_ECHO" Hs) by group_field.
  done.
Qed.

Lemma LoggingSettings_new_congr (w1 w2 : World) (init : Kwargs) :
  same_group_inputs w1 w2 → LoggingSettings_new init w1 = LoggingSettings_new init w2.
Proof.
  intros Hs. unfold LoggingSettings_new.
  rewrite (settings_simple_base_congr w1 w2 init "LOG_LEVEL" Hs) by group_field.
  rewrite (settings_simple_base_congr w1 w2 init "LOG_FORMAT" Hs) by group_field.
  rewrite (settings_simple_base_congr w1 w2 init "FILTER_WARNING" Hs) by group_field.
  done.
Qed.

Lemma WhisperSettings_new_congr (w1 w2 : World) (init : Kwargs) :
  same_group_inputs w1 w2 → WhisperSettings_new init w1 = WhisperSettings_new init w2.
Proof.
  intros Hs. unfold WhisperSettings_new, WhisperSettings_populate.
  unfold DEVICE_default_factory, COMPUTE_TYPE_default_factory.
  rewrite (proj1 Hs).
  rewrite (settings_complex_base_congr w1 w2 init "AUDIO_EXTENSIONS" Hs) by group_field.
  rewrite (settings_complex_base_congr w1 w2 init "VIDEO_EXTENSIONS" Hs) by group_field.
  rewrite (settings_simple_base_congr w1 w2 init "HF_TOKEN" Hs) by group_field.
  rewrite (settings_simple_base_congr w1 w2 init "WHISPER_MODEL" Hs) by group_field.
  rewrite (settings_simple_base_congr w1 w2 init "DEFAULT_LANG" Hs) by group_field.
  rewrite (settings_simple_base_congr w1 w2 init "DEVICE" Hs) by group_field.
  rewrite (settings_simple_base_congr w1 w2 init "COMPUTE_TYPE" Hs) by group_field.
  done.
Qed.

(** [Settings()] depends on the world through the values its sources find
    for its own fields and through what the nested groups find. *)
Lemma Settings_new_congr (w1 w2 : World) :
  (∀ group, group ∈ ["database"; "whisper"; "logging"] →
     settings_complex Settings_model_config w1 [] group
     = settings_complex Settings_model_config w2 [] group) →
  ENVIRONMENT_input w1 = ENVIRONMENT_input w2 →
  settings_simple Settings_model_config w1 [] "DEV"
  = settings_simple Settings_model_config w2 [] "DEV" →
  same_group_inputs w1 w2 →
  Settings_new w1 = Settings_new w2.
Proof.
  intros Hc He Hd Hg. unfold Settings_new.
  rewrite (Hc "database"), (Hc "whisper"), (Hc "logging"), He, Hd by set_solver.
  unfold mbind, result_bind, nested_settings.
  destruct (settings_complex _ w2 [] "database") as [db_in|]; [|done].
  destruct (settings_complex _ w2 [] "whisper") as [wh_in|]; [|done].
  destruct (settings_complex _ w2 [] "logging") as [lg_in|]; [|done].
  destruct (field_value validate_bool false _) as [dev|]; [|done].
  unfold mbind, result_bind.
  destruct (nested_kwargs db_in) as [db_init|]; [|done].
  rewrite (DatabaseSettings_new_congr w1 w2 db_init Hg).
  destruct (DatabaseSettings_new db_init w2) as [db|]; [|done].
  destruct (nested_kwargs wh_in) as [wh_init|]; [|done].
  rewrite (WhisperSettings_new_congr w1 w2 wh_init Hg).
  destruct (WhisperSettings_new wh_init w2) as [wh|]; [|done].
  destruct (nested_kwargs lg_in) as [lg_init|]; [|done].
  by rewrite (LoggingSettings_new_congr w1 w2 lg_init Hg).
Qed.

End Dependence.

(** ** Precedence of the live environment over the env file *)

Section Precedence.
Context `{Externals}.

Lemma env_settings_vars_Settings (w : World) :
  env_settings_vars Settings_model_config w = environ_vars (os_environ w).
Proof. reflexivity. Qed.

Lemma dotenv_settings_vars_with_env_file (w : World) (vars : EnvVars) :
  dotenv_settings_vars Settings_model_config (with_env_file w ".env" vars) = vars.
Proof.
  unfold dotenv_settings_vars, with_env_file. cbn.
  by rewrite lookup_insert_eq.
Qed.

Lemma same_group_inputs_with_env_file (w : World) (path : string) (vars vars' : EnvVars) :
  same_group_inputs (with_env_file w path vars) (with_env_file w path vars').
Proof. by split. Qed.

Lemma recognized_key_unrelated (key group : string) :
  key ∈ recognized_keys → group ∈ ["database"; "whisper"; "logging"] →
  bool_decide (key = group) || String.prefix (group +:+ "__") key = false.
Proof.
  unfold recognized_keys. intros Hk Hg.
  repeat (apply elem_of_cons in Hg as [->|Hg]);
    [..|by apply elem_of_nil in Hg];
    repeat (apply elem_of_cons in Hk as [->|Hk]);
    try (by apply elem_of_nil in Hk); by vm_compute.
Qed.

Lemma settings_complex_env_file (w : World) (key group : string) (file file' : EnvVars) :
  key ∈ recognized_keys → group ∈ ["database"; "whisper"; "logging"] →
  vars_without key file = vars_without key file' →
  settings_complex Settings_model_config (with_env_file w ".env" file) [] group
  = settings_complex Settings_model_config (with_env_file w ".env" file') [] group.
Proof.
  intros Hk Hg Heq. unfold settings_complex.
  rewrite !dotenv_settings_vars_with_env_file.
  replace (complex_field_value Settings_model_config file group)
    with (complex_field_value Settings_model_config file' group); [done|].
  unfold complex_field_value. cbn [env_nested_delimiter Settings_model_config].
  pose proof (recognized_key_unrelated key group Hk Hg) as Hun.
  change (field_env_name Settings_model_config group) with group.
  by rewrite <- (related_vars_without key group "__" file'), <- Heq,
    related_vars_without.
Qed.

(** What a nested group finds for one of its simple fields: the argument
    it is constructed with, or without one the live variable of the
    field's name in lower case. *)
Lemma settings_simple_base (w : World) (init : Kwargs) (field : string) :
  settings_simple BaseSettings_model_config w init field
  = match kwargs_get BaseSettings_model_config init field with
    | Some a => Some a
    | None =>
        PyStr <$> vars_get (env_settings_vars BaseSettings_model_config w) (str_lower field)
    end.
Proof.
  unfold settings_simple, simple_field_value.
  rewrite dotenv_settings_vars_base, field_env_name_base.
  change (vars_get [] (str_lower field)) with (@None string).
  by destruct (vars_get _ _), (kwargs_get _ _ _).
Qed.

Lemma vars_lookup_environ_lower (env : Environ) (name : string) (r : option string) :
  vars_lookup (parse_env_vars false (environ_vars env)) name = Some r → is_Some r.
Proof.
  induction env as [|[k v] env IH]; [done|].
  unfold parse_env_vars, environ_vars in *. rewrite !fmap_cons.
  cbn [vars_lookup fst snd].
  destruct (vars_lookup _ name) as [r'|] eqn:E.
  - intros [= <-]. by apply IH.
  - destruct (bool_decide _); [|done]. intros [= <-]. by eexists.
Qed.

(** A variable that is set live is found by the nested groups, which look
    it up in lower case. *)
Lemma group_sees_live (w : World) (key live : string) :
  vars_get (environ_vars (os_environ w)) key = Some live →
  ∃ seen,
    vars_get (env_settings_vars BaseSettings_model_config w) (str_lower key) = Some seen.
Proof.
  unfold env_settings_vars, vars_get. cbn [case_sensitive BaseSettings_model_config].
  intros Hlive.
  assert (Hset : vars_lookup (environ_vars (os_environ w)) key ≠ None)
    by (intros Hn; by rewrite Hn in Hlive).
  clear Hlive. revert Hset. generalize (os_environ w) as env.
  induction env as [|[k v] env IH]; [done|].
  unfold parse_env_vars, environ_vars in *. rewrite !fmap_cons.
  cbn [vars_lookup fst snd]. intros Hset.
  destruct (vars_lookup ((λ kv, (str_lower kv.1, kv.2)) <$> _) (str_lower key))
    as [r|] eqn:E.
  - destruct (vars_lookup_environ_lower env _ _ E) as [x ->]. by exists x.
  - destruct (vars_lookup ((λ kv, (kv.1, Some kv.2)) <$> env) key) eqn:E2.
    + destruct IH as [seen Hseen]; [done|]. done.
    + destruct (bool_decide_reflect (k = key)) as [->|Hk]; [|done].
      rewrite bool_decide_eq_true_2 by done. by exists v.
Qed.

Lemma vars_lookup_lower_sole (vars : EnvVars) (key : string) :
  (∀ name, name ≠ key → str_lower name = str_lower key → vars_lookup vars name = None) →
  vars_lookup (parse_env_vars false vars) (str_lower key) = vars_lookup vars key.
Proof.
  induction vars as [|[k v] vars IH]; intros Hsole; [done|].
  unfold parse_env_vars in *. rewrite fmap_cons. cbn [vars_lookup fst snd].
  rewrite IH.
  2:{ intros name Hne Hl. specialize (Hsole name Hne Hl).
      cbn [vars_lookup] in Hsole. by destruct (vars_lookup vars name). }
  destruct (vars_lookup vars key); [done|].
  destruct (bool_decide_reflect (k = key)) as [->|Hk].
  - by rewrite bool_decide_eq_true_2.
  - rewrite bool_decide_eq_false_2; [done|].
    intros Hl. specialize (Hsole k Hk Hl). cbn [vars_lookup] in Hsole.
    destruct (vars_lookup vars k); [done|].
    by rewrite bool_decide_eq_true_2 in Hsole.
Qed.

Lemma group_sees_sole_live (w : World) (key live seen : string) :
  vars_get (environ_vars (os_environ w)) key = Some live →
  vars_get (env_settings_vars BaseSettings_model_config w) (str_lower key) = Some seen →
  no_case_variant w key → seen = live.
Proof.
  unfold env_settings_vars, vars_get. cbn [case_sensitive BaseSettings_model_config].
  intros Hlive Hseen Hsole. rewrite (vars_lookup_lower_sole _ key Hsole) in Hseen.
  congruence.
Qed.

(** The fields of the groups are the validated inputs. *)
Lemma DatabaseSettings_new_inputs (init : Kwargs) (w : World) (db : DatabaseSettings) :
  DatabaseSettings_new init w = Ok db →
  field_value validate_str "sqlite:///records.db"
    (settings_simple BaseSettings_model_config w init "DB_URL") = Ok (DB_URL db)
  ∧ field_value validate_bool false
      (settings_simple BaseSettings_model_config w init "DB_ECHO") = Ok (DB_ECHO db).
Proof.
  intros Hdb. unfold DatabaseSettings_new in Hdb. result_inv Hdb. by subst db.
Qed.

Lemma LoggingSettings_new_inputs (init : Kwargs) (w : World) (lg : LoggingSettings) :
  LoggingSettings_new init w = Ok lg →
  field_value validate_str "INFO"
    (settings_simple BaseSettings_model_config w init "LOG_LEVEL") = Ok (LOG_LEVEL lg)
  ∧ field_value validate_str "text"
      (settings_simple BaseSettings_model_config w init "LOG_FORMAT") = Ok (LOG_FORMAT lg)
  ∧ field_value validate_bool true
      (settings_simple BaseSettings_model_config w init "FILTER_WARNING")
    = Ok (FILTER_WARNING lg).
Proof.
  intros Hlg. unfold LoggingSettings_new in Hlg. result_inv Hlg. by subst lg.
Qed.

Lemma WhisperSettings_new_inputs (init : Kwargs) (w : World) (wh : WhisperSettings) :
  WhisperSettings_new init w = Ok wh →
  field_value validate_optional_str None
    (settings_simple BaseSettings_model_config w init "HF_TOKEN") = Ok (HF_TOKEN wh)
  ∧ field_value validate_WhisperModel tiny
      (settings_simple BaseSettings_model_config w init "WHISPER_MODEL")
    = Ok (WHISPER_MODEL wh)
  ∧ field_value validate_str "en"
      (settings_simple BaseSettings_model_config w init "DEFAULT_LANG")
    = Ok (DEFAULT_LANG wh)
  ∧ field_value validate_Device (DEVICE_default_factory w)
      (settings_simple BaseSettings_model_config w init "DEVICE") = Ok (DEVICE wh)
  ∧ ∃ c, field_value validate_ComputeType (COMPUTE_TYPE_default_factory w)
           (settings_simple BaseSettings_model_config w init "COMPUTE_TYPE") = Ok c
         ∧ COMPUTE_TYPE wh = if bool_decide (DEVICE wh = cpu) then int8 else c.
Proof.
  intros Hwh. apply WhisperSettings_new_populate in Hwh as (p & Hp & ->).
  destruct (validate_compute_type_for_cpu_fields p) as (-> & -> & -> & -> & _).
  rewrite validate_compute_type_for_cpu_compute.
  unfold WhisperSettings_populate in Hp. result_inv Hp. subst p. cbn.
  repeat split; try done. by eexists.
Qed.

Lemma Settings_new_inputs (w : World) (s : Settings) :
  Settings_new w = Ok s →
  ENVIRONMENT s = normalize_environment (default "production" (ENVIRONMENT_input w))
  ∧ field_value validate_bool false (settings_simple Settings_model_config w [] "DEV")
    = Ok (DEV s).
Proof. intros Hs. unfold Settings_new in Hs. result_inv Hs. by subst s. Qed.

(** A field of a nested group holds the value its group finds for it. *)
Lemma group_field_holds (w : World) (s : Settings) (key group : string)
    (init : Kwargs) (v : Val) :
  key ∈ recognized_keys → field_group key = Some group →
  Settings_new w = Ok s → group_arguments group w = Ok init →
  settings_simple BaseSettings_model_config w init key = Some v →
  field_holds s key v.
Proof.
  unfold recognized_keys. intros Hk Hg Hs Hargs Hin.
  destruct (Settings_new_database w s Hs) as (idb & Hidb & Hdb).
  destruct (Settings_new_whisper w s Hs) as (iwh & Hiwh & Hwh).
  destruct (Settings_new_logging w s Hs) as (ilg & Hilg & Hlg).
  apply DatabaseSettings_new_inputs in Hdb as (Hdb1 & Hdb2).
  apply WhisperSettings_new_inputs in Hwh as (Hwh1 & Hwh2 & Hwh3 & Hwh4 & c & Hwh5 & Hc).
  apply LoggingSettings_new_inputs in Hlg as (Hlg1 & Hlg2 & Hlg3).
  repeat (apply elem_of_cons in Hk as [->|Hk]); [..|by apply elem_of_nil in Hk];
    vm_compute in Hg; try discriminate Hg; injection Hg as <-;
    match goal with
    | Hi : group_arguments ?g w = Ok ?i |- _ =>
        lazymatch i with
        | init => fail
        | _ => rewrite Hargs in Hi; injection Hi as <-
        end
    end;
    rewrite Hin in *; cbn [field_value] in *;
    unfold field_holds; repeat split; intros Hkey; try discriminate Hkey; eauto.
Qed.

(** C7, as the module has it. For each of the twelve recognized variables
    that is set in the live environment, what the env file says under the
    same name has no effect on the Settings. ENVIRONMENT and DEV hold the
    value of the live variable. A field of a nested group holds the value
    its group reads under the name, which is that of the live variable
    unless another live variable differs from it in letter case only; but
    where the group is given the field through nested addressing, it
    holds that argument instead, also when the argument comes from the
    env file. Between the nested forms of the two sources the live one is
    the updating side: where the live environment gives a group an
    argument for a field, and the deep update of the file's value by the
    live one keeps it, the field holds it whatever the env file says. *)
Theorem live_variable_wins_over_env_file (w : World) (file : EnvVars) :
  let w1 := with_env_file w ".env" file in
  (∀ key live,
     key ∈ recognized_keys →
     vars_get (environ_vars (os_environ w)) key = Some live →
     (∀ file', vars_without key file = vars_without key file' →
        Settings_new w1 = Settings_new (with_env_file w ".env" file'))
     ∧ (∀ s, Settings_new w1 = Ok s →
          match field_group key with
          | None => field_holds s key (PyStr live)
          | Some group =>
              ∃ init seen,
                group_arguments group w1 = Ok init
                ∧ vars_get (env_settings_vars BaseSettings_model_config w) (str_lower key)
                  = Some seen
                ∧ (no_case_variant w key → seen = live)
                ∧ field_holds s key
                    (default (PyStr seen) (kwargs_get BaseSettings_model_config init key))
          end))
  ∧ (∀ group field live_value a s,
       field ∈ recognized_keys → field_group field = Some group →
       group_live_input group w = Ok (Some live_value) →
       gives_argument live_value field a →
       (∀ file_value, group_file_input group w1 = Ok (Some file_value) →
          gives_argument (deep_update_value file_value live_value) field a) →
       Settings_new w1 = Ok s →
       field_holds s field a).
Proof.
  intros w1. split.
  - intros key live Hk Hlive. split.
    + intros file' Heq. subst w1. apply Settings_new_congr.
      * intros group Hg. by apply (settings_complex_env_file w key).
      * unfold ENVIRONMENT_input. rewrite !dotenv_settings_vars_with_env_file.
        change (field_env_name Settings_model_config "ENVIRONMENT") with "ENVIRONMENT".
        change (env_settings_vars Settings_model_config (with_env_file w ".env" file))
          with (environ_vars (os_environ w)).
        change (env_settings_vars Settings_model_config (with_env_file w ".env" file'))
          with (environ_vars (os_environ w)).
        destruct (decide (key = "ENVIRONMENT")) as [->|Hne].
        -- by rewrite Hlive.
        -- by rewrite (vars_get_without key "ENVIRONMENT" file file').
      * unfold settings_simple, simple_field_value.
        rewrite !dotenv_settings_vars_with_env_file.
        change (field_env_name Settings_model_config "DEV") with "DEV".
        change (env_settings_vars Settings_model_config (with_env_file w ".env" file))
          with (environ_vars (os_environ w)).
        change (env_settings_vars Settings_model_config (with_env_file w ".env" file'))
          with (environ_vars (os_environ w)).
        destruct (decide (key = "DEV")) as [->|Hne].
        -- rewrite Hlive. cbn.
           by destruct (vars_get file "DEV"), (vars_get file' "DEV").
        -- by rewrite (vars_get_without key "DEV" file file').
      * apply same_group_inputs_with_env_file.
    + intros s Hs. destruct (field_group key) as [group|] eqn:Hg.
      * destruct (group_sees_live w key live Hlive) as [seen Hseen].
        assert (Hargs : ∃ init, group_arguments group w1 = Ok init).
        { destruct (Settings_new_database w1 s Hs) as (idb & Hidb & _).
          destruct (Settings_new_whisper w1 s Hs) as (iwh & Hiwh & _).
          destruct (Settings_new_logging w1 s Hs) as (ilg & Hilg & _).
          unfold field_group in Hg.
          repeat (destruct (existsb _ _); [injection Hg as <-; eauto|]).
          discriminate Hg. }
        destruct Hargs as [init Hargs]. exists init, seen.
        split; [done|]. split; [done|].
        split; [by apply group_sees_sole_live|].
        apply (group_field_holds w1 s key group init); try done.
        rewrite settings_simple_base.
        change (env_settings_vars BaseSettings_model_config w1)
          with (env_settings_vars BaseSettings_model_config w).
        rewrite Hseen. by destruct (kwargs_get _ init key).
      * apply Settings_new_inputs in Hs as (Henv & Hdev).
        unfold ENVIRONMENT_input in Henv.
        unfold settings_simple, simple_field_value in Hdev.
        change (env_settings_vars Settings_model_config w1)
          with (environ_vars (os_environ w)) in *.
        unfold recognized_keys in Hk.
        repeat (apply elem_of_cons in Hk as [->|Hk]); [..|by apply elem_of_nil in Hk];
          vm_compute in Hg; try discriminate Hg;
          unfold field_holds; repeat split; intros Hkey; try discriminate Hkey.
        -- change (field_env_name Settings_model_config "ENVIRONMENT")
             with "ENVIRONMENT" in Henv.
           rewrite Hlive in Henv. by exists live.
        -- change (field_env_name Settings_model_config "DEV") with "DEV" in Hdev.
           rewrite Hlive in Hdev.
           destruct (vars_get (dotenv_settings_vars Settings_model_config w1) "DEV");
             exact Hdev.
  - intros group field lv a s Hf Hg Hlv Ha Hupd Hs.
    assert (Hargs : ∃ init, group_arguments group w1 = Ok init
                            ∧ kwargs_get BaseSettings_model_config init field = Some a).
    { assert (Hok : ∃ init, group_arguments group w1 = Ok init).
      { destruct (Settings_new_database w1 s Hs) as (idb & Hidb & _).
        destruct (Settings_new_whisper w1 s Hs) as (iwh & Hiwh & _).
        destruct (Settings_new_logging w1 s Hs) as (ilg & Hilg & _).
        unfold field_group in Hg.
        repeat (destruct (existsb _ _); [injection Hg as <-; eauto|]).
        discriminate Hg. }
      destruct Hok as [init Hinit]. exists init. split; [done|].
      unfold group_arguments, settings_complex in Hinit.
      unfold group_live_input in Hlv. unfold group_file_input in Hupd.
      change (env_settings_vars Settings_model_config w1)
        with (env_settings_vars Settings_model_config w) in Hinit.
      rewrite Hlv in Hinit. unfold mbind, result_bind in Hinit.
      destruct (complex_field_value Settings_model_config
                  (dotenv_settings_vars Settings_model_config w1) group)
        as [[fv|]|] eqn:Hfv; [| |discriminate Hinit].
      - destruct (Hupd fv eq_refl) as (init' & Hi' & Hget).
        cbn [merge_value kwargs_get] in Hinit. congruence.
      - destruct Ha as (init' & Hi' & Hget).
        cbn [merge_value kwargs_get] in Hinit. congruence. }
    destruct Hargs as (init & Hargs & Hget).
    apply (group_field_holds w1 s field group init); try done.
    by rewrite settings_simple_base, Hget.
Qed.

End Precedence.

(** ** Letter case in variable names *)

Lemma ascii_lower_char_is_ascii (c : ascii) :
  (nat_of_ascii (ascii_lower_char c) <? 128)%nat = (nat_of_ascii c <? 128)%nat.
Proof. by destruct c as [[] [] [] [] [] [] [] []]. Qed.

Lemma str_is_ascii_lower (s : string) :
  str_is_ascii (ascii_lower s) = str_is_ascii s.
Proof.
  induction s as [|c s IH]; [done|].
  cbn [ascii_lower str_is_ascii]. by rewrite ascii_lower_char_is_ascii, IH.
Qed.

Lemma ascii_lower_app (a b : string) :
  ascii_lower (a +:+ b) = ascii_lower a +:+ ascii_lower b.
Proof.
  induction a as [|c a IH]; [done|].
  rewrite append_cons. cbn [ascii_lower]. by rewrite IH, append_cons.
Qed.

Lemma prefix_ascii_lower (p s : string) :
  String.prefix p s = true → String.prefix (ascii_lower p) (ascii_lower s) = true.
Proof.
  rewrite !prefix_true_iff. intros [t ->].
  exists (ascii_lower t). apply ascii_lower_app.
Qed.

Section LetterCase.
Context `{Externals}.

Lemma str_lower_case_variant (name field : string) :
  str_is_ascii field = true → ascii_lower name = ascii_lower field →
  str_lower name = ascii_lower field.
Proof.
  intros Ha Hl. rewrite str_lower_ascii; [done|].
  by rewrite <- str_is_ascii_lower, Hl, str_is_ascii_lower.
Qed.

(** A name that is ENVIRONMENT or DEV in another letter case is none of
    the names the construction of Settings looks at. *)
Lemma case_variant_unused (name field : string) :
  field ∈ ["ENVIRONMENT"; "DEV"] → differs_in_case_only name field →
  name ≠ "ENVIRONMENT" ∧ name ≠ "DEV"
  ∧ (∀ group, group ∈ ["database"; "whisper"; "logging"] →
       bool_decide (name = group) || String.prefix (group +:+ "__") name = false)
  ∧ (∀ f, f ∈ group_fields → str_lower name ≠ str_lower f).
Proof.
  intros Hf [Hne Hl].
  assert (Ha : str_is_ascii field = true).
  { repeat (apply elem_of_cons in Hf as [->|Hf]); [done..|].
    by apply elem_of_nil in Hf. }
  pose proof (str_lower_case_variant name field Ha Hl) as Hstr.
  assert (Hother : ∀ x, ascii_lower x ≠ ascii_lower field → name ≠ x).
  { by intros x Hx ->. }
  repeat (apply elem_of_cons in Hf as [->|Hf]); [..|by apply elem_of_nil in Hf].
  all: split; [|split; [|split]]; try done; try (apply Hother; by vm_compute).
  all: try (intros group Hg; apply orb_false_intro;
    [ apply bool_decide_eq_false_2;
      repeat (apply elem_of_cons in Hg as [->|Hg]);
        [..|by apply elem_of_nil in Hg]; apply Hother; by vm_compute
    | destruct (String.prefix (group +:+ "__") name) eqn:Hp; [|done];
      apply prefix_ascii_lower in Hp; rewrite Hl in Hp;
      repeat (apply elem_of_cons in Hg as [->|Hg]);
        [..|by apply elem_of_nil in Hg]; by vm_compute in Hp ]).
  all: intros f Hg; rewrite Hstr; unfold group_fields in Hg; cbn in Hg;
    repeat (apply elem_of_cons in Hg as [->|Hg]);
      [..|by apply elem_of_nil in Hg];
      (rewrite str_lower_ascii by done); by vm_compute.
Qed.

Lemma env_settings_vars_with_environ (cs : SettingsConfigDict) (w : World) (env : Environ) :
  env_settings_vars cs (with_environ w env)
  = parse_env_vars (case_sensitive cs) (environ_vars env).
Proof. reflexivity. Qed.

Lemma parse_env_vars_insert (cs : bool) (l1 l2 : Environ) (name value : string) :
  parse_env_vars cs (environ_vars (l1 ++ (name, value) :: l2))
  = parse_env_vars cs (environ_vars l1)
    ++ ((if cs then name else str_lower name), Some value)
       :: parse_env_vars cs (environ_vars l2).
Proof.
  unfold parse_env_vars, environ_vars. destruct cs.
  - by rewrite fmap_app.
  - by rewrite !fmap_app.
Qed.

Lemma parse_env_vars_app (cs : bool) (l1 l2 : Environ) :
  parse_env_vars cs (environ_vars (l1 ++ l2))
  = parse_env_vars cs (environ_vars l1) ++ parse_env_vars cs (environ_vars l2).
Proof.
  unfold parse_env_vars, environ_vars. destruct cs; by rewrite !fmap_app.
Qed.

Lemma complex_field_value_insert (l1 l2 : EnvVars) (name group : string) (v : option string) :
  bool_decide (name = group) || String.prefix (group +:+ "__") name = false →
  complex_field_value Settings_model_config (l1 ++ (name, v) :: l2) group
  = complex_field_value Settings_model_config (l1 ++ l2) group.
Proof.
  intros Hun. unfold complex_field_value.
  cbn [env_nested_delimiter Settings_model_config].
  change (field_env_name Settings_model_config group) with group.
  by rewrite related_vars_insert.
Qed.

(** C9, as the module has it. Matching is case-sensitive for the fields of
    Settings itself: a variable, live or in the env file, whose name is
    ENVIRONMENT or DEV in another letter case changes nothing in the
    Settings constructed. The nested groups declare no configuration of
    their own and match without regard to case: renaming a live variable
    to another letter case changes nothing in how a group is constructed,
    and a variable that is DB_URL in any letter case populates the
    database URL. *)
Theorem case_sensitive_only_at_top_level (w : World) :
  (∀ name field value env1 env2,
     field ∈ ["ENVIRONMENT"; "DEV"] → differs_in_case_only name field →
     Settings_new (with_environ w (env1 ++ (name, value) :: env2))
     = Settings_new (with_environ w (env1 ++ env2)))
  ∧ (∀ name field value file1 file2,
     field ∈ ["ENVIRONMENT"; "DEV"] → differs_in_case_only name field →
     Settings_new (with_env_file w ".env" (file1 ++ (name, value) :: file2))
     = Settings_new (with_env_file w ".env" (file1 ++ file2)))
  ∧ (∀ name name' value env1 env2 init,
     str_lower name = str_lower name' →
     let w1 := with_environ w (env1 ++ (name, value) :: env2) in
     let w2 := with_environ w (env1 ++ (name', value) :: env2) in
     DatabaseSettings_new init w1 = DatabaseSettings_new init w2
     ∧ WhisperSettings_new init w1 = WhisperSettings_new init w2
     ∧ LoggingSettings_new init w1 = LoggingSettings_new init w2)
  ∧ (∀ name value,
     str_lower name = str_lower "DB_URL" →
     DatabaseSettings_new [] (with_environ w [(name, value)])
     = Ok {| DB_URL := value; DB_ECHO := false |}).
Proof.
  split; [|split; [|split]].
  - intros name field value env1 env2 Hf Hd.
    destruct (case_variant_unused name field Hf Hd) as (HnE & HnD & Hgr & Hfl).
    apply Settings_new_congr.
    + intros group Hg. unfold settings_complex.
      rewrite !env_settings_vars_with_environ, parse_env_vars_insert, parse_env_vars_app.
      cbn [case_sensitive Settings_model_config].
      by rewrite complex_field_value_insert by by apply Hgr.
    + unfold ENVIRONMENT_input.
      rewrite !env_settings_vars_with_environ, parse_env_vars_insert, parse_env_vars_app.
      cbn [case_sensitive Settings_model_config].
      change (field_env_name Settings_model_config "ENVIRONMENT") with "ENVIRONMENT".
      by rewrite vars_get_insert_other.
    + unfold settings_simple, simple_field_value.
      rewrite !env_settings_vars_with_environ, parse_env_vars_insert, parse_env_vars_app.
      cbn [case_sensitive Settings_model_config].
      change (field_env_name Settings_model_config "DEV") with "DEV".
      by rewrite vars_get_insert_other.
    + split; [done|]. intros f Hg.
      rewrite !env_settings_vars_with_environ, parse_env_vars_insert, parse_env_vars_app.
      cbn [case_sensitive BaseSettings_model_config].
      by rewrite vars_get_insert_other by by apply Hfl.
  - intros name field value file1 file2 Hf Hd.
    destruct (case_variant_unused name field Hf Hd) as (HnE & HnD & Hgr & Hfl).
    apply Settings_new_congr.
    + intros group Hg. unfold settings_complex.
      rewrite !dotenv_settings_vars_with_env_file.
      by rewrite complex_field_value_insert by by apply Hgr.
    + unfold ENVIRONMENT_input. rewrite !dotenv_settings_vars_with_env_file.
      change (field_env_name Settings_model_config "ENVIRONMENT") with "ENVIRONMENT".
      by rewrite vars_get_insert_other.
    + unfold settings_simple, simple_field_value.
      rewrite !dotenv_settings_vars_with_env_file.
      change (field_env_name Settings_model_config "DEV") with "DEV".
      by rewrite vars_get_insert_other.
    + apply same_group_inputs_with_env_file.
  - intros name name' value env1 env2 init Hl w1 w2.
    assert (Hs : same_group_inputs w1 w2).
    { split; [done|]. intros f _. unfold w1, w2.
      rewrite !env_settings_vars_with_environ, !parse_env_vars_insert.
      cbn [case_sensitive BaseSettings_model_config]. by rewrite Hl. }
    split; [|split].
    + by apply DatabaseSettings_new_congr.
    + by apply WhisperSettings_new_congr.
    + by apply LoggingSettings_new_congr.
  - intros name value Hl. unfold DatabaseSettings_new.
    unfold settings_simple, simple_field_value.
    rewrite !dotenv_settings_vars_base, !field_env_name_base.
    rewrite env_settings_vars_with_environ.
    cbn [case_sensitive BaseSettings_model_config parse_env_vars environ_vars fmap list_fmap
         fst snd].
    unfold vars_get. cbn [vars_lookup]. rewrite Hl.
    rewrite (bool_decide_eq_true_2 (str_lower "DB_URL" = str_lower "DB_URL")) by done.
    rewrite (bool_decide_eq_false_2 (str_lower "DB_URL" = str_lower "DB_ECHO")); [done|].
    by rewrite !str_lower_ascii.
Qed.

End LetterCase.

(** * The properties at concrete inputs *)

(** A missing NCCL symbol reported by the import as an ImportError, on a
    host without an NCCL library. *)
Lemma import_guard_descriptive_or_unchanged_witness :
  let h := {| uname_machine := "x86_64"; path_exists := λ _, false; glob := λ _, [] |} in
  let e := Exc ImportError "libtorch_cuda.so: undefined symbol: ncclGroupSimulateEnd" in
  ∃ e', load_torch h [] (Some e) = inl e'
        ∧ exc_class e' = ImportError ∧ exc_cause e' = Some e
        ∧ contains "  LD_PRELOAD: not set" (exc_str e').
Proof.
  intros h e.
  destruct (proj1 (import_guard_descriptive_or_unchanged h [] e))
    as (e' & Hload & Hcls & Hcause & Hmsg & _).
  - reflexivity.
  - right. by exists "libtorch_cuda.so: ", ": ncclGroupSimulateEnd".
  - exists e'. repeat split; try assumption.
    rewrite Hmsg. apply str_contains_iff. by vm_compute.
Defined.

(** The same missing symbol reported by an exception of another class, as
    [ctypes] does with an AttributeError: the guard lets it pass as it is. *)
Lemma import_guard_other_class_counterexample :
  let h := {| uname_machine := "x86_64"; path_exists := λ _, false; glob := λ _, [] |} in
  let e := Exc (OtherException "AttributeError")
             "/usr/lib/x86_64-linux-gnu/libnccl.so.2: undefined symbol: ncclGroupSimulateEnd" in
  has_marker (exc_str e)
  ∧ load_torch h [] (Some e) = inl e
  ∧ exc_class e ≠ ImportError
  ∧ exc_cause e = None.
Proof.
  intros h e. split; [|by repeat split].
  apply nccl_marker_iff. by vm_compute.
Qed.

(** DEVICE=cpu with COMPUTE_TYPE=float16 requested. *)
Lemma cpu_forces_int8_witness :
  let w := with_environ bare_world [("DEVICE", "cpu"); ("COMPUTE_TYPE", "float16")] in
  ∃ populated self : @WhisperSettings sample_externals,
    WhisperSettings_populate [] w = Ok populated
    ∧ COMPUTE_TYPE populated = @float16 sample_externals
    ∧ WhisperSettings_new [] w = Ok self
    ∧ DEVICE self = cpu ∧ COMPUTE_TYPE self = @int8 sample_externals.
Proof.
  intros w.
  pose (populated := {| HF_TOKEN := None; WHISPER_MODEL := @tiny sample_externals;
                        DEFAULT_LANG := "en"; DEVICE := cpu;
                        COMPUTE_TYPE := @float16 sample_externals;
                        AUDIO_EXTENSIONS := AUDIO_EXTENSIONS_default;
                        VIDEO_EXTENSIONS := VIDEO_EXTENSIONS_default |}).
  assert (Hp : WhisperSettings_populate (H:=sample_externals) [] w = Ok populated)
    by reflexivity.
  destruct (cpu_forces_int8 [] w populated Hp) as (Hnew & Hcpu & _).
  exists populated, (validate_compute_type_for_cpu populated).
  split; [exact Hp|]. split; [reflexivity|]. split; [exact Hnew|].
  split; [reflexivity|]. apply (Hcpu _ Hnew). reflexivity.
Defined.

(** A machine with a GPU and neither DEVICE nor COMPUTE_TYPE set. *)
Lemma device_and_compute_type_defaults_witness :
  let w := {| os_environ := []; env_files := ∅; cuda_is_available := true |} in
  ∃ self : @WhisperSettings sample_externals, WhisperSettings_new [] w = Ok self
          ∧ DEVICE self = cuda ∧ COMPUTE_TYPE self = @float16 sample_externals.
Proof.
  intros w.
  pose (populated := {| HF_TOKEN := None; WHISPER_MODEL := @tiny sample_externals;
                        DEFAULT_LANG := "en"; DEVICE := cuda;
                        COMPUTE_TYPE := @float16 sample_externals;
                        AUDIO_EXTENSIONS := AUDIO_EXTENSIONS_default;
                        VIDEO_EXTENSIONS := VIDEO_EXTENSIONS_default |}).
  assert (Hp : WhisperSettings_populate (H:=sample_externals) [] w = Ok populated)
    by reflexivity.
  destruct (device_and_compute_type_defaults [] w populated Hp) as (Hnew & Hdev & Hct).
  exists (validate_compute_type_for_cpu populated). split; [exact Hnew|]. split.
  - apply (proj1 (Hdev eq_refl)). reflexivity.
  - apply (proj2 (proj2 (Hct eq_refl))). reflexivity.
Defined.

(** The first call in a fresh process, and a call after it. *)
Lemma get_settings_returns_cached_instance_witness :
  ∃ p1, get_settings (H:=sample_externals) bare_world Process_init = (p1, Ok 0)
        ∧ ∀ w', get_settings (H:=sample_externals) w' p1 = (p1, Ok 0).
Proof.
  pose (p1 := (get_settings (H:=sample_externals) bare_world Process_init).1).
  assert (Hg : get_settings (H:=sample_externals) bare_world Process_init = (p1, Ok 0))
    by reflexivity.
  destruct (get_settings_returns_cached_instance bare_world Process_init p1 0 eq_refl Hg)
    as (_ & Hagain & _).
  exists p1. split; [exact Hg | exact Hagain].
Defined.


(** ENVIRONMENT=Production. *)
Lemma environment_is_lowercased_witness :
  let w := with_environ bare_world [("ENVIRONMENT", "Production")] in
  ∃ s : @Settings sample_externals, Settings_new w = Ok s ∧ ENVIRONMENT s = "production".
Proof.
  intros w.
  assert (Hs : ∃ s : @Settings sample_externals, Settings_new w = Ok s)
    by (eexists; reflexivity).
  destruct Hs as [s Hs]. exists s. split; [exact Hs|].
  apply (proj1 (proj2 (environment_is_lowercased w s Hs))). reflexivity.
Defined.

(** ENVIRONMENT set to the empty string. *)
Lemma empty_environment_is_production_witness :
  let w := with_environ bare_world [("ENVIRONMENT", "")] in
  ∃ s : @Settings sample_externals, Settings_new w = Ok s ∧ ENVIRONMENT s = "production".
Proof.
  intros w.
  assert (Hs : ∃ s : @Settings sample_externals, Settings_new w = Ok s)
    by (eexists; reflexivity).
  destruct Hs as [s Hs]. exists s. split; [exact Hs|].
  apply (proj1 (empty_environment_is_production w s Hs eq_refl)).
Defined.

(** DB_URL set in the env file and, to another value, in the live
    environment; DEV likewise; and database__DB_URL likewise. *)
Lemma live_variable_wins_over_env_file_witness :
  (let w := with_environ bare_world [("DB_URL", "file:///tmp/y.db")] in
   let file := [("DB_URL", Some "file:///tmp/x.db")] in
   Settings_new (H:=nested_sample_externals) (with_env_file w ".env" file)
   = Settings_new (H:=nested_sample_externals) (with_env_file w ".env" [])
   ∧ ∃ s : @Settings nested_sample_externals,
       Settings_new (with_env_file w ".env" file) = Ok s
       ∧ DB_URL (database s) = "file:///tmp/y.db")
  ∧ (let w := with_environ bare_world [("DEV", "true")] in
     let file := [("DEV", Some "false")] in
     ∃ s : @Settings nested_sample_externals,
       Settings_new (with_env_file w ".env" file) = Ok s ∧ DEV s = true)
  ∧ (let w := with_environ bare_world [("database__DB_URL", "file:///tmp/y.db")] in
     let file := [("database__DB_URL", Some "file:///tmp/x.db")] in
     ∃ s : @Settings nested_sample_externals,
       Settings_new (with_env_file w ".env" file) = Ok s
       ∧ DB_URL (database s) = "file:///tmp/y.db").
Proof.
  split; [|split].
  - intros w file.
    destruct (proj1 (live_variable_wins_over_env_file (H:=nested_sample_externals) w file)
                "DB_URL" "file:///tmp/y.db") as (Hsame & Hheld).
    + unfold recognized_keys. constructor.
    + reflexivity.
    + split; [exact (Hsame [] eq_refl)|].
      assert (Hs : ∃ s : @Settings nested_sample_externals,
                     Settings_new (with_env_file w ".env" file) = Ok s)
        by (eexists; reflexivity).
      destruct Hs as [s Hs]. exists s. split; [exact Hs|].
      destruct (Hheld s Hs) as (init & seen & Hargs & Hseen & _ & Hholds).
      assert (Hinit : group_arguments (H:=nested_sample_externals) "database"
                        (with_env_file w ".env" file) = Ok []) by reflexivity.
      rewrite Hinit in Hargs. injection Hargs as <-.
      assert (Hlow : vars_get
                       (env_settings_vars (H:=nested_sample_externals)
                          BaseSettings_model_config w)
                       (str_lower (Externals:=nested_sample_externals) "DB_URL")
                     = Some "file:///tmp/y.db") by reflexivity.
      rewrite Hlow in Hseen. injection Hseen as <-.
      destruct Hholds as (_ & _ & Hurl & _).
      specialize (Hurl eq_refl). by injection Hurl.
  - intros w file.
    destruct (proj1 (live_variable_wins_over_env_file (H:=nested_sample_externals) w file)
                "DEV" "true") as (_ & Hheld).
    + unfold recognized_keys. repeat constructor.
    + reflexivity.
    + assert (Hs : ∃ s : @Settings nested_sample_externals,
                     Settings_new (with_env_file w ".env" file) = Ok s)
        by (eexists; reflexivity).
      destruct Hs as [s Hs]. exists s. split; [exact Hs|].
      destruct (Hheld s Hs) as (_ & Hdev & _).
      specialize (Hdev eq_refl). by injection Hdev.
  - intros w file.
    assert (Hs : ∃ s : @Settings nested_sample_externals,
                   Settings_new (with_env_file w ".env" file) = Ok s)
      by (eexists; reflexivity).
    destruct Hs as [s Hs]. exists s. split; [exact Hs|].
    destruct (proj2 (live_variable_wins_over_env_file (H:=nested_sample_externals) w file)
                "database" "DB_URL"
                (PyJson [("DB_URL", "file:///tmp/y.db")]) (PyStr "file:///tmp/y.db") s)
      as (_ & _ & Hurl & _).
    + unfold recognized_keys. constructor.
    + reflexivity.
    + reflexivity.
    + exists [("DB_URL", PyStr "file:///tmp/y.db")]. by split.
    + intros fv Hfv.
      assert (Hfile : group_file_input (H:=nested_sample_externals) "database"
                        (with_env_file w ".env" file)
                      = Ok (Some (PyJson [("DB_URL", "file:///tmp/x.db")])))
        by reflexivity.
      rewrite Hfile in Hfv. injection Hfv as <-.
      exists [("DB_URL", PyStr "file:///tmp/y.db"); ("DB_URL", PyStr "file:///tmp/x.db")].
      by split.
    + exact Hs.
    + specialize (Hurl eq_refl). by injection Hurl.
Defined.

(** DB_URL set to y in the live environment and to x in the env file,
    which also sets database__DB_URL to z: the database URL of the
    Settings is z, not the live value. *)
Lemma live_variable_loses_to_nested_file_entry_counterexample :
  let w := with_environ bare_world [("DB_URL", "file:///tmp/y.db")] in
  let file := [("DB_URL", Some "file:///tmp/x.db");
               ("database__DB_URL", Some "file:///tmp/z.db")] in
  vars_get (environ_vars (os_environ w)) "DB_URL" = Some "file:///tmp/y.db"
  ∧ vars_get file "DB_URL" = Some "file:///tmp/x.db"
  ∧ ∃ s : @Settings nested_sample_externals,
      Settings_new (with_env_file w ".env" file) = Ok s
      ∧ DB_URL (database s) = "file:///tmp/z.db"
      ∧ DB_URL (database s) ≠ "file:///tmp/y.db".
Proof.
  intros w file. split; [reflexivity|]. split; [reflexivity|].
  assert (Hs : ∃ s : @Settings nested_sample_externals,
                 Settings_new (with_env_file w ".env" file) = Ok s
                 ∧ DB_URL (database s) = "file:///tmp/z.db")
    by (eexists; split; reflexivity).
  destruct Hs as (s & Hs & Hurl). exists s. rewrite Hurl. by repeat split.
Qed.

(** A live variable named environment. *)
Lemma case_sensitive_only_at_top_level_witness :
  Settings_new (H:=sample_externals) (with_environ bare_world [("environment", "Staging")])
  = Settings_new (H:=sample_externals) (with_environ bare_world []).
Proof.
  apply (proj1 (case_sensitive_only_at_top_level (H:=sample_externals) bare_world)
           "environment" "ENVIRONMENT" "Staging" [] []).
  - set_solver.
  - split; [discriminate | reflexivity].
Defined.

(** A live variable named db_url: it differs from DB_URL in letter case
    only, and the database URL of the Settings is its value. *)
Lemma nested_group_case_counterexample :
  let w := with_environ bare_world [("db_url", "sqlite:///other.db")] in
  differs_in_case_only "db_url" "DB_URL"
  ∧ ∃ s : @Settings sample_externals, Settings_new w = Ok s
         ∧ DB_URL (database s) = "sqlite:///other.db"
         ∧ DB_URL (database s) ≠ "sqlite:///records.db".
Proof.
  intros w. split; [by split|].
  assert (Hs : ∃ s : @Settings sample_externals, Settings_new w = Ok s
                    ∧ DB_URL (database s) = "sqlite:///other.db")
    by (eexists; split; reflexivity).
  destruct Hs as (s & Hs & Hurl). exists s. rewrite Hurl. by repeat split.
Qed.

(** * Further properties of the module *)

(** ** The LD_PRELOAD fallback *)

Lemma environ_get_set_eq (env : Environ) (name value : string) :
  environ_get (environ_set env name value) name = Some value.
Proof.
  induction env as [|[k v] env IH]; cbn [environ_set environ_get].
  - by rewrite bool_decide_eq_true_2.
  - destruct (bool_decide_reflect (k = name)) as [->|Hne]; cbn [environ_get].
    + by rewrite bool_decide_eq_true_2.
    + by rewrite bool_decide_eq_false_2.
Qed.

Lemma environ_get_set_ne (env : Environ) (name name' value : string) :
  name ≠ name' →
  environ_get (environ_set env name value) name' = environ_get env name'.
Proof.
  intros Hne. induction env as [|[k v] env IH]; cbn [environ_set environ_get].
  - by rewrite bool_decide_eq_false_2.
  - destruct (bool_decide_reflect (k = name)) as [->|Hk]; cbn [environ_get].
    + by rewrite !bool_decide_eq_false_2.
    + by rewrite IH.
Qed.

Lemma str_nonempty_true (s : string) : str_nonempty s = true ↔ s ≠ "".
Proof. by destruct s. Qed.

Lemma preload_fallback_acts (h : Host) (env : Environ) (lib : string) :
  environ_get env "LD_PRELOAD" = None ∨ environ_get env "LD_PRELOAD" = Some "" →
  find_nccl_lib h = Some lib → lib ≠ "" → path_exists h lib = true →
  preload_fallback h env
  = environ_set (environ_set env "LD_PRELOAD" lib) "LD_LIBRARY_PATH"
      (dirname lib +:+ ":" +:+ torch_lib +:+ ":/usr/local/cuda/lib64:"
       +:+ environ_get_default env "LD_LIBRARY_PATH" "").
Proof.
  intros Hpre Hfind Hne Hex. unfold preload_fallback.
  rewrite Hfind, Hex, (proj2 (str_nonempty_true lib) Hne). cbn [andb].
  unfold environ_get_default. rewrite (environ_get_set_ne env) by done.
  by destruct Hpre as [-> | ->].
Qed.

(** X1. When LD_PRELOAD is unset or empty and a library is found, the
    fallback sets LD_PRELOAD to the library, puts the library's directory,
    the torch directory and the CUDA directory in front of the previous
    LD_LIBRARY_PATH, and leaves every other variable as it was. *)
Theorem preload_fallback_sets_both_variables
    (h : Host) (env : Environ) (lib : string) :
  environ_get env "LD_PRELOAD" = None ∨ environ_get env "LD_PRELOAD" = Some "" →
  find_nccl_lib h = Some lib → lib ≠ "" → path_exists h lib = true →
  let env' := preload_fallback h env in
  environ_get env' "LD_PRELOAD" = Some lib
  ∧ environ_get env' "LD_LIBRARY_PATH"
    = Some (dirname lib +:+ ":" +:+ torch_lib +:+ ":/usr/local/cuda/lib64:"
            +:+ environ_get_default env "LD_LIBRARY_PATH" "")
  ∧ ∀ name, name ≠ "LD_PRELOAD" → name ≠ "LD_LIBRARY_PATH" →
      environ_get env' name = environ_get env name.
Proof.
  intros Hpre Hfind Hne Hex env'. unfold env'.
  rewrite (preload_fallback_acts h env lib Hpre Hfind Hne Hex).
  split; [|split].
  - rewrite environ_get_set_ne by done. apply environ_get_set_eq.
  - apply environ_get_set_eq.
  - intros name H1 H2. by rewrite !environ_get_set_ne.
Qed.

(** X2. A non-empty LD_PRELOAD is respected: the fallback changes nothing,
    LD_LIBRARY_PATH included, whatever libraries the host has. Nor does it
    change anything when no library is found. *)
Theorem preload_fallback_keeps_preset (h : Host) (env : Environ) :
  (∃ v, environ_get env "LD_PRELOAD" = Some v ∧ v ≠ "") ∨ find_nccl_lib h = None →
  preload_fallback h env = env.
Proof.
  unfold preload_fallback. intros [(v & -> & Hv) | Hnone].
  - by destruct v.
  - rewrite Hnone. by destruct (environ_get env "LD_PRELOAD") as [[|]|].
Qed.

(** X3. Running the fallback a second time changes nothing more. *)
Theorem preload_fallback_idempotent (h : Host) (env : Environ) :
  preload_fallback h (preload_fallback h env) = preload_fallback h env.
Proof.
  destruct (environ_get env "LD_PRELOAD") as [[|c v]|] eqn:Hpre.
  2: { rewrite (preload_fallback_keeps_preset h env); [|left; by eexists].
       apply preload_fallback_keeps_preset. left. by eexists. }
  all: destruct (find_nccl_lib h) as [lib|] eqn:Hfind;
    [|rewrite (preload_fallback_keeps_preset h env) by (by right);
      apply preload_fallback_keeps_preset; by right].
  all: destruct (str_nonempty lib && path_exists h lib) eqn:Hok.
  all: try (apply andb_true_iff in Hok as [Hne%str_nonempty_true Hex];
    apply preload_fallback_keeps_preset; left; exists lib; split; [|done];
    by apply preload_fallback_sets_both_variables; auto).
  all: assert (Hid : preload_fallback h env = env)
    by (unfold preload_fallback; by rewrite Hpre, Hfind, Hok).
  all: by rewrite !Hid.
Qed.

(** [posixpath.dirname] on the path of the system library. *)
Lemma dirname_head_no_sep (s : string) :
  str_contains "/" s = false → dirname_head s = None.
Proof.
  induction s as [|c s IH]; [done|]. cbn [str_contains dirname_head].
  intros [Hp Hs]%orb_false_iff. rewrite (IH Hs).
  destruct (bool_decide_reflect (c = "/"%char)) as [->|]; [|done].
  by destruct s.
Qed.

Lemma dirname_head_app (a b : string) :
  str_contains "/" b = false →
  dirname_head (a +:+ "/" +:+ b) = Some (a +:+ "/").
Proof.
  intros Hb. induction a as [|c a IH].
  - rewrite !append_nil. change ("/" +:+ b) with (String "/" b).
    cbn [dirname_head]. by rewrite (dirname_head_no_sep b Hb).
  - rewrite (append_cons c a ("/" +:+ b)), (append_cons c a "/").
    cbn [dirname_head]. by rewrite IH.
Qed.

Lemma rstrip_sep_app_sep (a : string) : rstrip_sep (a +:+ "/") = rstrip_sep a.
Proof.
  induction a as [|c a IH]; [done|].
  rewrite append_cons. cbn [rstrip_sep]. by rewrite IH.
Qed.

Lemma rstrip_sep_app_char (a : string) (c : ascii) :
  c ≠ "/"%char → rstrip_sep (a +:+ String c "") = a +:+ String c "".
Proof.
  intros Hc. induction a as [|d a IH].
  - rewrite append_nil. cbn [rstrip_sep]. by rewrite (bool_decide_eq_false_2 (c = "/"%char)).
  - rewrite append_cons. cbn [rstrip_sep]. rewrite IH.
    rewrite bool_decide_eq_false_2; [done|]. by destruct a.
Qed.

Lemma dirname_system_nccl (h : Host) :
  dirname (system_nccl h) = "/usr/lib/" +:+ uname_machine h +:+ "-linux-gnu".
Proof.
  unfold dirname, system_nccl.
  set (dir := "/usr/lib/" +:+ uname_machine h +:+ "-linux-gn").
  assert (Hd : "/usr/lib/" +:+ uname_machine h +:+ "-linux-gnu" = dir +:+ "u").
  { unfold dir. by rewrite !append_assoc. }
  assert (Hp : "/usr/lib/" +:+ uname_machine h +:+ "-linux-gnu/libnccl.so.2"
               = (dir +:+ "u") +:+ "/" +:+ "libnccl.so.2").
  { unfold dir. by rewrite !append_assoc. }
  rewrite Hp, Hd, dirname_head_app by done. unfold default, id.
  rewrite rstrip_sep_app_sep, rstrip_sep_app_char by done.
  by destruct dir.
Qed.

(** X4. The system library comes first: when it exists and LD_PRELOAD is
    unset or empty, LD_PRELOAD becomes its path and LD_LIBRARY_PATH starts
    with its directory, /usr/lib/MACHINE-linux-gnu, whatever the torch
    directory holds and whatever the machine name is. *)
Theorem preload_fallback_prefers_system_library (h : Host) (env : Environ) :
  environ_get env "LD_PRELOAD" = None ∨ environ_get env "LD_PRELOAD" = Some "" →
  path_exists h (system_nccl h) = true →
  let env' := preload_fallback h env in
  environ_get env' "LD_PRELOAD"
    = Some ("/usr/lib/" +:+ uname_machine h +:+ "-linux-gnu/libnccl.so.2")
  ∧ environ_get env' "LD_LIBRARY_PATH"
    = Some ("/usr/lib/" +:+ uname_machine h +:+ "-linux-gnu" +:+ ":" +:+ torch_lib
            +:+ ":/usr/local/cuda/lib64:" +:+ environ_get_default env "LD_LIBRARY_PATH" "").
Proof.
  intros Hpre Hex env'.
  assert (Hfind : find_nccl_lib h = Some (system_nccl h)).
  { unfold find_nccl_lib. by rewrite Hex. }
  assert (Hne : system_nccl h ≠ "") by done.
  destruct (preload_fallback_sets_both_variables h env _ Hpre Hfind Hne Hex)
    as (H1 & H2 & _).
  split; [exact H1|]. unfold env'. rewrite H2, dirname_system_nccl.
  by rewrite !append_assoc.
Qed.

(** ** The load of torch *)

(** X5. A failure of the import is never swallowed: the load fails whenever
    the import does, with the original exception or with one whose cause
    it is; and when the import succeeds the module goes on under the
    environment the fallback left. *)
Theorem load_torch_outcome
    (h : Host) (env : Environ) (import_torch : option Exception) :
  match import_torch with
  | Some e => ∃ e', load_torch h env import_torch = inl e'
                    ∧ (e' = e ∨ exc_cause e' = Some e)
  | None => load_torch h env import_torch = inr (preload_fallback h env)
  end.
Proof.
  destruct import_torch as [e|]; [|done].
  exists (import_guard (preload_fallback h env) e). split; [done|].
  unfold import_guard.
  destruct (guard_catches (exc_class e)); [|by left].
  destruct (nccl_marker (exc_str e)); [by right | by left].
Qed.

(** ** Variables that name no field *)

Lemma environ_set_split (env : Environ) (name value : string) :
  (∃ l1 v0 l2, env = l1 ++ (name, v0) :: l2
               ∧ environ_set env name value = l1 ++ (name, value) :: l2)
  ∨ environ_set env name value = env ++ [(name, value)].
Proof.
  induction env as [|[k v] env IH]; [by right|].
  cbn [environ_set].
  destruct (bool_decide_reflect (k = name)) as [->|Hne].
  - left. by exists [], v, env.
  - destruct IH as [(l1 & v0 & l2 & -> & ->) | ->]; [left|by right].
    by exists ((k, v) :: l1), v0, l2.
Qed.

Lemma vars_lookup_None (vars : EnvVars) (name : string) :
  Forall (λ kv, kv.1 ≠ name) vars → vars_lookup vars name = None.
Proof.
  induction 1 as [|[k v] vars Hk _ IH]; [done|].
  cbn [vars_lookup]. rewrite IH. by rewrite bool_decide_eq_false_2.
Qed.

Section Unused.
Context `{Externals}.

Lemma group_field_is_ascii (f : string) : f ∈ group_fields → str_is_ascii f = true.
Proof.
  unfold group_fields. cbn. intros Hf.
  repeat (apply elem_of_cons in Hf as [->|Hf]); [done..|].
  by apply elem_of_nil in Hf.
Qed.

(** For a name of ASCII characters, being unused is a matter of
    comparing strings. *)
Lemma ascii_name_unused_sound (name : string) :
  ascii_name_unused name = true → unused_name name.
Proof.
  unfold ascii_name_unused.
  intros [[[Ha Htop]%andb_true_iff Hgr]%andb_true_iff Hfl]%andb_true_iff.
  apply negb_true_iff, bool_decide_eq_false in Htop.
  apply negb_true_iff, bool_decide_eq_false in Hfl.
  split; [|split; [|split]].
  - intros ->. apply Htop. set_solver.
  - intros ->. apply Htop. set_solver.
  - intros group Hg. rewrite forallb_forall in Hgr.
    apply negb_true_iff, Hgr, list_elem_of_In, Hg.
  - intros f Hf. rewrite (str_lower_ascii name Ha).
    rewrite (str_lower_ascii f (group_field_is_ascii f Hf)).
    intros Heq. apply Hfl. rewrite Heq. by apply list_elem_of_fmap_2.
Qed.

Lemma Settings_new_unused_live (w : World) (name value : string) (env1 env2 : Environ) :
  unused_name name →
  Settings_new (with_environ w (env1 ++ (name, value) :: env2))
  = Settings_new (with_environ w (env1 ++ env2)).
Proof.
  intros (HnE & HnD & Hgr & Hfl). apply Settings_new_congr.
  - intros group Hg. unfold settings_complex.
    rewrite !env_settings_vars_with_environ, parse_env_vars_insert, parse_env_vars_app.
    cbn [case_sensitive Settings_model_config].
    by rewrite complex_field_value_insert by by apply Hgr.
  - unfold ENVIRONMENT_input.
    rewrite !env_settings_vars_with_environ, parse_env_vars_insert, parse_env_vars_app.
    cbn [case_sensitive Settings_model_config].
    change (field_env_name Settings_model_config "ENVIRONMENT") with "ENVIRONMENT".
    by rewrite vars_get_insert_other.
  - unfold settings_simple, simple_field_value.
    rewrite !env_settings_vars_with_environ, parse_env_vars_insert, parse_env_vars_app.
    cbn [case_sensitive Settings_model_config].
    change (field_env_name Settings_model_config "DEV") with "DEV".
    by rewrite vars_get_insert_other.
  - split; [done|]. intros f Hg.
    rewrite !env_settings_vars_with_environ, parse_env_vars_insert, parse_env_vars_app.
    cbn [case_sensitive BaseSettings_model_config].
    by rewrite vars_get_insert_other by by apply Hfl.
Qed.

Lemma Settings_new_unused_file (w : World) (name : string) (value : option string)
    (file1 file2 : EnvVars) :
  unused_name name →
  Settings_new (with_env_file w ".env" (file1 ++ (name, value) :: file2))
  = Settings_new (with_env_file w ".env" (file1 ++ file2)).
Proof.
  intros (HnE & HnD & Hgr & Hfl). apply Settings_new_congr.
  - intros group Hg. unfold settings_complex.
    rewrite !dotenv_settings_vars_with_env_file.
    by rewrite complex_field_value_insert by by apply Hgr.
  - unfold ENVIRONMENT_input. rewrite !dotenv_settings_vars_with_env_file.
    change (field_env_name Settings_model_config "ENVIRONMENT") with "ENVIRONMENT".
    by rewrite vars_get_insert_other.
  - unfold settings_simple, simple_field_value.
    rewrite !dotenv_settings_vars_with_env_file.
    change (field_env_name Settings_model_config "DEV") with "DEV".
    by rewrite vars_get_insert_other.
  - apply same_group_inputs_with_env_file.
Qed.

(** X6. Unknown variables are ignored, not rejected: a variable that names
    no field, in the live environment or in the env file, changes nothing
    in what [Settings()] gives, be it an instance or a failure. *)
Theorem unused_variable_is_ignored (w : World) (name : string) :
  unused_name name →
  (∀ value env1 env2,
     Settings_new (with_environ w (env1 ++ (name, value) :: env2))
     = Settings_new (with_environ w (env1 ++ env2)))
  ∧ (∀ value file1 file2,
     Settings_new (with_env_file w ".env" (file1 ++ (name, value) :: file2))
     = Settings_new (with_env_file w ".env" (file1 ++ file2))).
Proof.
  intros Hu. split; intros.
  - by apply Settings_new_unused_live.
  - by apply Settings_new_unused_file.
Qed.

Lemma Settings_new_environ_set (w : World) (env : Environ) (name value : string) :
  unused_name name →
  Settings_new (with_environ w (environ_set env name value))
  = Settings_new (with_environ w env).
Proof.
  intros Hu. destruct (environ_set_split env name value)
    as [(l1 & v0 & l2 & -> & ->) | ->].
  - by rewrite !Settings_new_unused_live.
  - rewrite Settings_new_unused_live by done. by rewrite app_nil_r.
Qed.

Lemma with_environ_id (w : World) : with_environ w (os_environ w) = w.
Proof. by destruct w. Qed.

(** X7. The fallback does not reach the configuration: the Settings built
    from the environment it leaves are those built from the environment
    it found, on every host. *)
Theorem preload_fallback_leaves_settings (h : Host) (w : World) :
  Settings_new (with_environ w (preload_fallback h (os_environ w))) = Settings_new w.
Proof.
  transitivity (Settings_new (with_environ w (os_environ w)));
    [|by rewrite with_environ_id].
  unfold preload_fallback.
  assert (H1 : unused_name "LD_PRELOAD")
    by (apply ascii_name_unused_sound; by vm_compute).
  assert (H2 : unused_name "LD_LIBRARY_PATH")
    by (apply ascii_name_unused_sound; by vm_compute).
  destruct (environ_get (os_environ w) "LD_PRELOAD") as [[|c v]|];
    try done;
    (destruct (find_nccl_lib h) as [lib|]; [|done]);
    (destruct (str_nonempty lib && path_exists h lib); [|done]);
    by rewrite !Settings_new_environ_set.
Qed.

End Unused.

(** ** What the nested groups read *)

Section Groups.
Context `{Externals}.

Lemma group_field_unrelated (key group : string) :
  key ∈ group_fields → group ∈ ["database"; "whisper"; "logging"] →
  bool_decide (key = group) || String.prefix (group +:+ "__") key = false.
Proof.
  unfold group_fields. cbn. intros Hk Hg.
  repeat (apply elem_of_cons in Hg as [->|Hg]);
    [..|by apply elem_of_nil in Hg];
    repeat (apply elem_of_cons in Hk as [->|Hk]);
    try (by apply elem_of_nil in Hk); by vm_compute.
Qed.

Lemma group_field_not_top (key : string) :
  key ∈ group_fields → key ≠ "ENVIRONMENT" ∧ key ≠ "DEV".
Proof.
  unfold group_fields. cbn. intros Hk.
  repeat (apply elem_of_cons in Hk as [->|Hk]);
    try (by apply elem_of_nil in Hk); by split.
Qed.

(** X8. The nested groups read no env file: whatever the env file says
    under the name of one of their fields, DB_URL or HF_TOKEN or DEVICE,
    has no effect on the Settings, also when the live environment does
    not set that name. *)
Theorem env_file_entry_for_group_field_is_ignored
    (w : World) (key : string) (file file' : EnvVars) :
  key ∈ group_fields →
  vars_without key file = vars_without key file' →
  Settings_new (with_env_file w ".env" file) = Settings_new (with_env_file w ".env" file').
Proof.
  intros Hk Heq. destruct (group_field_not_top key Hk) as [HnE HnD].
  apply Settings_new_congr.
  - intros group Hg. unfold settings_complex.
    rewrite !dotenv_settings_vars_with_env_file.
    replace (complex_field_value Settings_model_config file group)
      with (complex_field_value Settings_model_config file' group); [done|].
    unfold complex_field_value. cbn [env_nested_delimiter Settings_model_config].
    pose proof (group_field_unrelated key group Hk Hg) as Hun.
    change (field_env_name Settings_model_config group) with group.
    by rewrite <- (related_vars_without key group "__" file'), <- Heq,
      related_vars_without.
  - unfold ENVIRONMENT_input. rewrite !dotenv_settings_vars_with_env_file.
    change (field_env_name Settings_model_config "ENVIRONMENT") with "ENVIRONMENT".
    by rewrite (vars_get_without key "ENVIRONMENT" file file').
  - unfold settings_simple, simple_field_value.
    rewrite !dotenv_settings_vars_with_env_file.
    change (field_env_name Settings_model_config "DEV") with "DEV".
    by rewrite (vars_get_without key "DEV" file file').
  - apply same_group_inputs_with_env_file.
Qed.

Lemma settings_simple_argument (cfg : SettingsConfigDict) (w : World) (init : Kwargs)
    (field v : string) :
  kwargs_get cfg init field = Some (PyStr v) →
  settings_simple cfg w init field = Some (PyStr v).
Proof.
  intros Hk. unfold settings_simple. rewrite Hk.
  generalize (merge_value
    (simple_field_value cfg (dotenv_settings_vars cfg w) field)
    (simple_field_value cfg (env_settings_vars cfg w) field)).
  by intros [[|]|].
Qed.

(** X9. An argument of the constructor wins over the environment: a group
    constructed with a [str] for DB_URL holds that value whatever the live
    DB_URL is, and so the Settings hold the value the nested addressing
    gives the database group. *)
Theorem constructor_argument_wins_over_environment
    (w : World) (init : Kwargs) (v : string) :
  kwargs_get BaseSettings_model_config init "DB_URL" = Some (PyStr v) →
  (∀ db, DatabaseSettings_new init w = Ok db → DB_URL db = v)
  ∧ (∀ s, group_arguments "database" w = Ok init →
          Settings_new w = Ok s → DB_URL (database s) = v).
Proof.
  intros Hk.
  assert (Hdb : ∀ db, DatabaseSettings_new init w = Ok db → DB_URL db = v).
  { intros db Hdb. unfold DatabaseSettings_new in Hdb.
    rewrite (settings_simple_argument _ w init "DB_URL" v Hk) in Hdb.
    result_inv Hdb. subst db. cbn in *. congruence. }
  split; [done|]. intros s Hargs Hs.
  apply Settings_new_database in Hs as (init' & Hi & Hnew).
  apply Hdb. congruence.
Qed.

Lemma check_extra_forbid (fields : list string) (init : Kwargs) (k : string) (v : Val) :
  (k, v) ∈ init → str_lower k ∉ str_lower <$> fields →
  check_extra BaseSettings_model_config fields init = Raise ConfigValidationError.
Proof.
  intros Hin Hk. unfold check_extra. cbn [extra BaseSettings_model_config].
  destruct (forallb _ init) eqn:Hall; [|done].
  rewrite forallb_forall in Hall.
  apply list_elem_of_In, Hall, bool_decide_eq_true in Hin. done.
Qed.

(** X10. The nested groups forbid extra arguments: an argument whose name
    is none of a group's field names, in whatever letter case, makes the
    construction of the group fail, and with it the construction of
    Settings that passes it. *)
Theorem unknown_group_argument_fails (w : World) (init : Kwargs) (k : string) (v : Val) :
  (k, v) ∈ init →
  (str_lower k ∉ str_lower <$> DatabaseSettings_fields →
     DatabaseSettings_new init w = Raise ConfigValidationError
     ∧ (group_arguments "database" w = Ok init →
        Settings_new w = Raise ConfigValidationError))
  ∧ (str_lower k ∉ str_lower <$> WhisperSettings_fields →
     WhisperSettings_new init w = Raise ConfigValidationError
     ∧ (group_arguments "whisper" w = Ok init →
        Settings_new w = Raise ConfigValidationError))
  ∧ (str_lower k ∉ str_lower <$> LoggingSettings_fields →
     LoggingSettings_new init w = Raise ConfigValidationError
     ∧ (group_arguments "logging" w = Ok init →
        Settings_new w = Raise ConfigValidationError)).
Proof.
  intros Hin. split; [|split]; intros Hk.
  - assert (Hg : DatabaseSettings_new init w = Raise ConfigValidationError).
    { unfold DatabaseSettings_new. by rewrite (check_extra_forbid _ init k v). }
    split; [done|]. intros Hargs.
    destruct (Settings_new w) as [s|e] eqn:Hs; [|apply raise_unique].
    apply Settings_new_database in Hs as (init' & Hi & Hnew). congruence.
  - assert (Hg : WhisperSettings_new init w = Raise ConfigValidationError).
    { destruct (WhisperSettings_new init w) as [s|e] eqn:Hs; [|apply raise_unique].
      apply WhisperSettings_new_populate in Hs as (p & Hp & _).
      unfold WhisperSettings_populate in Hp. result_inv Hp.
      by rewrite (check_extra_forbid _ init k v) in E1. }
    split; [done|]. intros Hargs.
    destruct (Settings_new w) as [s|e] eqn:Hs; [|apply raise_unique].
    apply Settings_new_whisper in Hs as (init' & Hi & Hnew). congruence.
  - assert (Hg : LoggingSettings_new init w = Raise ConfigValidationError).
    { unfold LoggingSettings_new. by rewrite (check_extra_forbid _ init k v). }
    split; [done|]. intros Hargs.
    destruct (Settings_new w) as [s|e] eqn:Hs; [|apply raise_unique].
    apply Settings_new_logging in Hs as (init' & Hi & Hnew). congruence.
Qed.

Lemma kwargs_get_case (cfg : SettingsConfigDict) (k f g : string) (v : Val) :
  field_env_name cfg k = field_env_name cfg f →
  kwargs_get cfg [(k, v)] g = kwargs_get cfg [(f, v)] g.
Proof. intros Hk. cbn [kwargs_get]. by rewrite Hk. Qed.

Lemma check_extra_case (cfg : SettingsConfigDict) (fields : list string)
    (k f : string) (v : Val) :
  field_env_name cfg k = field_env_name cfg f →
  check_extra cfg fields [(k, v)] = check_extra cfg fields [(f, v)].
Proof. intros Hk. unfold check_extra. cbn [forallb fst]. by rewrite Hk. Qed.

Lemma settings_simple_case (cfg : SettingsConfigDict) (w : World) (k f g : string) (v : Val) :
  field_env_name cfg k = field_env_name cfg f →
  settings_simple cfg w [(k, v)] g = settings_simple cfg w [(f, v)] g.
Proof. intros Hk. unfold settings_simple. by rewrite (kwargs_get_case cfg k f g v Hk). Qed.

Lemma settings_complex_case (cfg : SettingsConfigDict) (w : World) (k f g : string) (v : Val) :
  field_env_name cfg k = field_env_name cfg f →
  settings_complex cfg w [(k, v)] g = settings_complex cfg w [(f, v)] g.
Proof. intros Hk. unfold settings_complex. by rewrite (kwargs_get_case cfg k f g v Hk). Qed.

(** X20. The nested groups take the names of their arguments without
    regard to letter case, as they do the names of variables: constructed
    with one argument, a group is the same under a name and under that
    name in another letter case, so db_url gives the database group its
    DB_URL and device the whisper group its DEVICE. *)
Theorem group_argument_name_in_any_letter_case (w : World) (k f : string) (v : Val) :
  str_lower k = str_lower f →
  DatabaseSettings_new [(k, v)] w = DatabaseSettings_new [(f, v)] w
  ∧ WhisperSettings_new [(k, v)] w = WhisperSettings_new [(f, v)] w
  ∧ LoggingSettings_new [(k, v)] w = LoggingSettings_new [(f, v)] w.
Proof.
  intros Hk.
  assert (Hn : field_env_name BaseSettings_model_config k
               = field_env_name BaseSettings_model_config f) by done.
  split; [|split].
  - unfold DatabaseSettings_new.
    by rewrite (check_extra_case _ _ k f v Hn),
      !(settings_simple_case _ w k f _ v Hn).
  - unfold WhisperSettings_new, WhisperSettings_populate.
    by rewrite (check_extra_case _ _ k f v Hn),
      !(settings_simple_case _ w k f _ v Hn), !(settings_complex_case _ w k f _ v Hn).
  - unfold LoggingSettings_new.
    by rewrite (check_extra_case _ _ k f v Hn),
      !(settings_simple_case _ w k f _ v Hn).
Qed.

(** X11. A boolean field does not fall back to its default either: a value
    that does not parse as a boolean, supplied for DEV, for DB_ECHO or for
    FILTER_WARNING, makes the construction fail. *)
Theorem unparseable_boolean_fails (w : World) (init : Kwargs) (v : Val) :
  validate_bool v = Raise ConfigValidationError →
  (settings_simple Settings_model_config w [] "DEV" = Some v →
     Settings_new w = Raise ConfigValidationError)
  ∧ (settings_simple BaseSettings_model_config w init "DB_ECHO" = Some v →
     DatabaseSettings_new init w = Raise ConfigValidationError)
  ∧ (settings_simple BaseSettings_model_config w init "FILTER_WARNING" = Some v →
     LoggingSettings_new init w = Raise ConfigValidationError).
Proof.
  intros Hv. split; [|split]; intros Hin.
  - destruct (Settings_new w) as [s|e] eqn:Hs; [|apply raise_unique].
    unfold Settings_new in Hs. result_inv Hs.
    rewrite Hin in *. cbn in *. congruence.
  - destruct (DatabaseSettings_new init w) as [s|e] eqn:Hs; [|apply raise_unique].
    unfold DatabaseSettings_new in Hs. result_inv Hs.
    rewrite Hin in *. cbn in *. congruence.
  - destruct (LoggingSettings_new init w) as [s|e] eqn:Hs; [|apply raise_unique].
    unfold LoggingSettings_new in Hs. result_inv Hs.
    rewrite Hin in *. cbn in *. congruence.
Qed.

End Groups.

(** ** Defaults *)

Lemma ascii_lower_char_idemp (c : ascii) :
  ascii_lower_char (ascii_lower_char c) = ascii_lower_char c.
Proof. by destruct c as [[] [] [] [] [] [] [] []]. Qed.

Lemma ascii_lower_idemp (s : string) : ascii_lower (ascii_lower s) = ascii_lower s.
Proof.
  induction s as [|c s IH]; [done|].
  cbn [ascii_lower]. by rewrite ascii_lower_char_idemp, IH.
Qed.

Lemma related_vars_nil `{Externals} (group delim : string) (vars : EnvVars) :
  Forall (λ kv, bool_decide (kv.1 = group) || String.prefix (group +:+ delim) kv.1 = false)
    vars →
  related_vars group delim vars = [].
Proof.
  unfold related_vars. induction 1 as [|kv vars Hkv _ IH]; [done|].
  cbn [List.filter]. by rewrite Hkv.
Qed.

Section Defaults.
Context `{Externals}.

Lemma unused_sources_top (w : World) :
  Forall (λ kv, unused_name kv.1) (os_environ w) →
  Forall (λ kv, unused_name kv.1) (env_file_vars w) →
  ENVIRONMENT_input w = None
  ∧ settings_simple Settings_model_config w [] "DEV" = None
  ∧ ∀ group, group ∈ ["database"; "whisper"; "logging"] →
      settings_complex Settings_model_config w [] group = Ok None.
Proof.
  intros Henv Hfile.
  assert (Hlive : ∀ name, (name = "ENVIRONMENT" ∨ name = "DEV") →
            vars_get (env_settings_vars Settings_model_config w) name = None).
  { intros name Hn. unfold vars_get. rewrite vars_lookup_None; [done|].
    rewrite env_settings_vars_Settings. unfold environ_vars.
    apply Forall_fmap. eapply Forall_impl; [exact Henv|].
    intros kv (H1 & H2 & _) Heq. cbn in Heq. by destruct Hn; subst. }
  assert (Hdot : ∀ name, (name = "ENVIRONMENT" ∨ name = "DEV") →
            vars_get (dotenv_settings_vars Settings_model_config w) name = None).
  { intros name Hn. unfold vars_get. rewrite vars_lookup_None; [done|].
    change (dotenv_settings_vars Settings_model_config w) with (env_file_vars w).
    eapply Forall_impl; [exact Hfile|].
    intros kv (H1 & H2 & _) Heq. by destruct Hn; subst. }
  split; [|split].
  - unfold ENVIRONMENT_input.
    change (field_env_name Settings_model_config "ENVIRONMENT") with "ENVIRONMENT".
    rewrite Hlive by by left. apply Hdot. by left.
  - unfold settings_simple, simple_field_value.
    change (field_env_name Settings_model_config "DEV") with "DEV".
    rewrite Hlive, Hdot by by right. done.
  - intros group Hg. unfold settings_complex, complex_field_value.
    cbn [env_nested_delimiter Settings_model_config].
    change (field_env_name Settings_model_config group) with group.
    rewrite (related_vars_nil group "__" (env_settings_vars _ w)).
    2: { rewrite env_settings_vars_Settings. unfold environ_vars.
         apply Forall_fmap. eapply Forall_impl; [exact Henv|].
         intros kv (_ & _ & Hgr & _). by apply Hgr. }
    rewrite (related_vars_nil group "__" (dotenv_settings_vars _ w)); [done|].
    change (dotenv_settings_vars Settings_model_config w) with (env_file_vars w).
    eapply Forall_impl; [exact Hfile|]. intros kv (_ & _ & Hgr & _). by apply Hgr.
Qed.

Lemma unused_sources_group (w : World) (f : string) :
  Forall (λ kv, unused_name kv.1) (os_environ w) →
  f ∈ group_fields →
  settings_simple BaseSettings_model_config w [] f = None
  ∧ settings_complex BaseSettings_model_config w [] f = Ok None.
Proof.
  intros Henv Hf.
  assert (Hget : vars_get (env_settings_vars BaseSettings_model_config w) (str_lower f)
                 = None).
  { unfold vars_get. rewrite vars_lookup_None; [done|].
    unfold env_settings_vars, parse_env_vars, environ_vars.
    cbn [case_sensitive BaseSettings_model_config].
    apply Forall_fmap, Forall_fmap. eapply Forall_impl; [exact Henv|].
    intros kv (_ & _ & _ & Hfl). cbn. by apply Hfl. }
  split.
  - unfold settings_simple, simple_field_value.
    by rewrite dotenv_settings_vars_base, field_env_name_base, Hget.
  - unfold settings_complex, complex_field_value.
    cbn [env_nested_delimiter BaseSettings_model_config].
    by rewrite dotenv_settings_vars_base, field_env_name_base, Hget.
Qed.

(** X12. Every field has a default, and nothing else is needed: when no
    variable of the live environment and of the env file names a field,
    [Settings()] succeeds and holds the defaults, with the device and the
    compute type the GPU probe selects. *)
Theorem Settings_without_input_are_the_defaults (w : World) :
  Forall (λ kv, unused_name kv.1) (os_environ w) →
  Forall (λ kv, unused_name kv.1) (env_file_vars w) →
  Settings_new w = Ok (Settings_defaults w).
Proof.
  intros Henv Hfile.
  destruct (unused_sources_top w Henv Hfile) as (HE & HD & HG).
  assert (HS : ∀ f, f ∈ group_fields →
            settings_simple BaseSettings_model_config w [] f = None)
    by (intros f Hf; by apply unused_sources_group).
  assert (HC : ∀ f, f ∈ group_fields →
            settings_complex BaseSettings_model_config w [] f = Ok None)
    by (intros f Hf; by apply unused_sources_group).
  assert (Hdb : DatabaseSettings_new [] w = Ok (database (Settings_defaults w))).
  { unfold DatabaseSettings_new.
    by rewrite (HS "DB_URL"), (HS "DB_ECHO") by (unfold group_fields; cbn; set_solver). }
  assert (Hlg : LoggingSettings_new [] w = Ok (logging (Settings_defaults w))).
  { unfold LoggingSettings_new.
    by rewrite (HS "LOG_LEVEL"), (HS "LOG_FORMAT"), (HS "FILTER_WARNING")
      by (unfold group_fields; cbn; set_solver). }
  assert (Hwh : WhisperSettings_new [] w = Ok (whisper (Settings_defaults w))).
  { unfold WhisperSettings_new, WhisperSettings_populate.
    rewrite (HS "HF_TOKEN"), (HS "WHISPER_MODEL"), (HS "DEFAULT_LANG"), (HS "DEVICE"),
      (HS "COMPUTE_TYPE"), (HC "AUDIO_EXTENSIONS"), (HC "VIDEO_EXTENSIONS")
      by (unfold group_fields; cbn; set_solver).
    cbn. unfold validate_compute_type_for_cpu,
      DEVICE_default_factory, COMPUTE_TYPE_default_factory. cbn.
    destruct (cuda_is_available w); cbn; [done|].
    by rewrite (bool_decide_eq_true_2 (int8 = int8)). }
  unfold Settings_new.
  rewrite (HG "database"), (HG "whisper"), (HG "logging"), HE, HD by set_solver.
  cbn [mbind result_bind nested_settings nested_kwargs field_value default].
  rewrite Hdb, Hwh, Hlg. cbn [mbind result_bind].
  unfold normalize_environment. cbn [str_nonempty]. by rewrite str_lower_production.
Qed.

(** ** The model validator and the environment name *)

(** X13. The validator is idempotent, and the instances it leaves as they
    are are exactly those in which a cpu device goes with int8. *)
Theorem validate_compute_type_for_cpu_idempotent (self : WhisperSettings) :
  validate_compute_type_for_cpu (validate_compute_type_for_cpu self)
  = validate_compute_type_for_cpu self
  ∧ (validate_compute_type_for_cpu self = self
     ↔ (DEVICE self = cpu → COMPUTE_TYPE self = int8)).
Proof.
  unfold validate_compute_type_for_cpu.
  destruct (bool_decide_reflect (DEVICE self = cpu)) as [Hd|Hd];
    destruct (bool_decide_reflect (COMPUTE_TYPE self = int8)) as [Hc|Hc]; cbn.
  - rewrite !bool_decide_eq_true_2 by done. by cbn.
  - rewrite (bool_decide_eq_true_2 (DEVICE self = cpu)) by done.
    rewrite (bool_decide_eq_true_2 (int8 = int8)) by done. cbn.
    split; [done|]. split; [|by intros Hi; destruct (Hc (Hi Hd))].
    intros Heq. apply (f_equal COMPUTE_TYPE) in Heq. cbn in Heq. by destruct Hc.
  - rewrite (bool_decide_eq_false_2 (DEVICE self = cpu)) by done. by cbn.
  - rewrite (bool_decide_eq_false_2 (DEVICE self = cpu)) by done. by cbn.
Qed.

Lemma ascii_lower_nonempty (s : string) : s ≠ "" → ascii_lower s ≠ "".
Proof. by destruct s. Qed.

(** X14. For an ENVIRONMENT value of ASCII characters, and without one, the
    environment name held is never empty and is in lower case already:
    normalizing it again gives the same name. *)
Theorem environment_is_nonempty_and_stable (w : World) (s : Settings) :
  Settings_new w = Ok s →
  (∀ v, ENVIRONMENT_input w = Some v → str_is_ascii v = true) →
  ENVIRONMENT s ≠ ""
  ∧ ascii_lower (ENVIRONMENT s) = ENVIRONMENT s
  ∧ normalize_environment (ENVIRONMENT s) = ENVIRONMENT s.
Proof.
  intros Hs Ha. rewrite (Settings_new_ENVIRONMENT _ _ Hs).
  assert (Hprod : normalize_environment "production" = "production").
  { unfold normalize_environment. cbn. apply str_lower_production. }
  assert (Hcases : normalize_environment (default "production" (ENVIRONMENT_input w))
                   = "production"
                   ∨ ∃ v, v ≠ "" ∧ str_is_ascii v = true
                          ∧ normalize_environment (default "production" (ENVIRONMENT_input w))
                            = ascii_lower v).
  { destruct (ENVIRONMENT_input w) as [v|] eqn:Hin; cbn [default]; [|by left].
    destruct v as [|c v]; [by left|]. right. exists (String c v).
    split; [done|]. split; [by apply Ha|].
    unfold normalize_environment. cbn [str_nonempty]. apply str_lower_ascii. by apply Ha. }
  destruct Hcases as [-> | (v & Hv & Hav & ->)].
  - by rewrite Hprod.
  - split; [by apply ascii_lower_nonempty|]. split; [apply ascii_lower_idemp|].
    unfold normalize_environment.
    rewrite (proj2 (str_nonempty_true _) (ascii_lower_nonempty v Hv)).
    rewrite str_lower_ascii by by rewrite str_is_ascii_lower.
    apply ascii_lower_idemp.
Qed.

End Defaults.

(** ** Runs of the cached accessor *)

Section Runs.
Context `{Externals}.

(** X15. In a process that starts without a Settings object, a run of calls
    is a run of failures followed by a run of successes: each failure
    leaves the process as it was, the first success creates the one object
    there will ever be, and every call after it returns that object. *)
Theorem get_settings_calls_fail_then_succeed
    (ws : list World) (p : Process) (rs : list (result nat)) :
  get_settings_calls ws Process_init = (p, rs) →
  ∃ n m, rs = replicate n (Raise ConfigValidationError) ++ replicate m (Ok 0)
         ∧ n + m = List.length ws
         ∧ ((m = 0 ∧ p = Process_init)
            ∨ (0 < m ∧ ∃ s, p = {| objects := [s]; cache := Some 0 |})).
Proof.
  revert p rs. induction ws as [|w ws IH]; intros p rs Hrun.
  - injection Hrun as <- <-. exists 0, 0. split; [done|]. split; [done|]. by left.
  - cbn [get_settings_calls] in Hrun.
    rewrite (get_settings_miss w Process_init eq_refl) in Hrun.
    destruct (Settings_new w) as [s|e] eqn:Hs.
    + cbn [objects Process_init app List.length] in Hrun.
      rewrite (get_settings_calls_hit ws {| objects := [s]; cache := Some 0 |} 0 eq_refl)
        in Hrun.
      injection Hrun as <- <-. exists 0, (S (List.length ws)).
      split; [done|]. split; [done|]. right. split; [lia|]. by exists s.
    + destruct (get_settings_calls ws Process_init) as [p2 rs2] eqn:Hrest.
      injection Hrun as <- <-.
      destruct (IH p2 rs2 eq_refl) as (n & m & -> & Hlen & Hp).
      exists (S n), m. split; [by destruct e|]. split; [cbn; lia|done].
Qed.

(** X16. A failure is not cached: after a call that raised, the next call
    constructs the Settings anew, under the environment of its moment. *)
Theorem failed_call_is_not_cached
    (w w' : World) (p : Process) (e : ConstructionError) (s : Settings) :
  cache p = None →
  Settings_new w = Raise e →
  Settings_new w' = Ok s →
  get_settings_calls [w; w'] p
  = ({| objects := objects p ++ [s]; cache := Some (List.length (objects p)) |},
     [Raise e; Ok (List.length (objects p))]).
Proof.
  intros Hc Hw Hw'. cbn [get_settings_calls].
  by rewrite (get_settings_miss w p Hc), Hw, (get_settings_miss w' p Hc), Hw'.
Qed.

(** ** The load of the module *)

(** X17. The module loads in one of three ways: the import of torch fails
    and the guard's exception ends the load; or [Settings()] fails, as it
    would under the environment the process started with, and its error
    ends the load; or the module is loaded, with the one Settings object
    in the cache and [Config] built from it. *)
Theorem load_module_outcome (h : Host) (w : World) (import_torch : option Exception) :
  load_module h w import_torch
  = match import_torch with
    | Some e => ImportFailed (import_guard (preload_fallback h (os_environ w)) e)
    | None =>
        match Settings_new w with
        | Ok s => Loaded (preload_fallback h (os_environ w))
                    {| objects := [s]; cache := Some 0 |} 0 (Config_class s)
        | Raise e => SettingsFailed e
        end
    end.
Proof.
  unfold load_module, load_torch. destruct import_torch as [e|]; [done|].
  rewrite (get_settings_miss _ Process_init eq_refl), preload_fallback_leaves_settings.
  by destruct (Settings_new w).
Qed.

Lemma load_module_Loaded (h : Host) (w : World) (import_torch : option Exception)
    (env : Environ) (p : Process) (id : nat) (config : Config.t) :
  load_module h w import_torch = Loaded env p id config →
  ∃ s, Settings_new w = Ok s ∧ p = {| objects := [s]; cache := Some 0 |}
       ∧ id = 0 ∧ config = Config_class s.
Proof.
  rewrite load_module_outcome. destruct import_torch; [done|].
  destruct (Settings_new w) as [s|]; [|done].
  intros [= <- <- <- <-]. by exists s.
Qed.

(** X18. Once the module is loaded, [Config] and [get_settings] agree: every
    later call of [get_settings], whatever the environment has become,
    returns the object [Config] was built from, and the attributes of
    [Config] are the values that object holds. *)
Theorem Config_agrees_with_get_settings
    (h : Host) (w : World) (import_torch : option Exception)
    (env : Environ) (p : Process) (id : nat) (config : Config.t) :
  load_module h w import_torch = Loaded env p id config →
  ∃ s, objects p !! id = Some s
       ∧ (∀ w', get_settings w' p = (p, Ok id))
       ∧ Config.DB_URL config = DB_URL (database s)
       ∧ Config.LANG config = DEFAULT_LANG (whisper s)
       ∧ Config.HF_TOKEN config = HF_TOKEN (whisper s)
       ∧ Config.WHISPER_MODEL config = WHISPER_MODEL (whisper s)
       ∧ Config.DEVICE config = DEVICE (whisper s)
       ∧ Config.COMPUTE_TYPE config = COMPUTE_TYPE (whisper s)
       ∧ Config.ENVIRONMENT config = ENVIRONMENT s
       ∧ Config.LOG_LEVEL config = LOG_LEVEL (logging s)
       ∧ Config.AUDIO_EXTENSIONS config = AUDIO_EXTENSIONS (whisper s)
       ∧ Config.VIDEO_EXTENSIONS config = VIDEO_EXTENSIONS (whisper s)
       ∧ Config.ALLOWED_EXTENSIONS config = ALLOWED_EXTENSIONS (whisper s).
Proof.
  intros (s & Hs & -> & -> & ->)%load_module_Loaded. exists s.
  split; [done|]. split; [|by repeat split].
  intros w'. by apply get_settings_hit.
Qed.

Lemma Settings_new_cpu_int8 (w : World) (s : Settings) :
  Settings_new w = Ok s →
  DEVICE (whisper s) = cpu → COMPUTE_TYPE (whisper s) = int8.
Proof.
  intros Hs Hd. destruct (Settings_new_whisper w s Hs) as (init & Hargs & Hw).
  destruct (proj1 (WhisperSettings_new_populate init w (whisper s)) Hw) as (p & Hp & Heq).
  rewrite Heq in *. rewrite validate_compute_type_for_cpu_compute.
  destruct (validate_compute_type_for_cpu_fields p) as (_ & _ & _ & Hdev & _).
  rewrite Hdev in Hd. by rewrite bool_decide_eq_true_2.
Qed.

(** X19. The legacy view keeps what the settings guarantee: in a loaded
    module the allowed extensions of [Config] are the union of its audio
    and video extensions, and a cpu device of [Config] goes with the int8
    compute type. *)
Theorem Config_keeps_the_invariants
    (h : Host) (w : World) (import_torch : option Exception)
    (env : Environ) (p : Process) (id : nat) (config : Config.t) :
  load_module h w import_torch = Loaded env p id config →
  Config.ALLOWED_EXTENSIONS config
  = Config.AUDIO_EXTENSIONS config ∪ Config.VIDEO_EXTENSIONS config
  ∧ (Config.DEVICE config = cpu → Config.COMPUTE_TYPE config = int8).
Proof.
  intros (s & Hs & -> & -> & ->)%load_module_Loaded.
  split; [done|]. cbn. by apply (Settings_new_cpu_int8 w).
Qed.

End Runs.

(** * The further properties at concrete inputs *)

(** A host with the library bundled with torch only, and a previous
    LD_LIBRARY_PATH. *)
Lemma preload_fallback_sets_both_variables_witness :
  let lib := torch_lib +:+ "/libnccl.so.2" in
  let h := {| uname_machine := "x86_64";
              path_exists := λ p, String.eqb p torch_lib || String.eqb p lib;
              glob := λ _, [lib] |} in
  let env' := preload_fallback h [("LD_LIBRARY_PATH", "/opt/lib")] in
  environ_get env' "LD_PRELOAD" = Some lib
  ∧ environ_get env' "LD_LIBRARY_PATH"
    = Some (torch_lib +:+ ":" +:+ torch_lib +:+ ":/usr/local/cuda/lib64:/opt/lib").
Proof.
  intros lib h env'.
  destruct (preload_fallback_sets_both_variables h [("LD_LIBRARY_PATH", "/opt/lib")] lib)
    as (H1 & H2 & _).
  - by left.
  - reflexivity.
  - discriminate.
  - reflexivity.
  - split; [exact H1|]. unfold env'. rewrite H2. reflexivity.
Defined.

(** LD_PRELOAD set by the startup script, on a host that has the system
    library. *)
Lemma preload_fallback_keeps_preset_witness :
  let h := {| uname_machine := "x86_64"; path_exists := λ _, true; glob := λ _, [] |} in
  let env := [("LD_PRELOAD", "/opt/nccl/libnccl.so.2"); ("LD_LIBRARY_PATH", "/opt/nccl")] in
  preload_fallback h env = env.
Proof.
  intros h env. apply preload_fallback_keeps_preset.
  left. exists "/opt/nccl/libnccl.so.2". split; [reflexivity | discriminate].
Defined.

(** An aarch64 host with the system library and an empty LD_PRELOAD. *)
Lemma preload_fallback_prefers_system_library_witness :
  let h := {| uname_machine := "aarch64"; path_exists := λ _, true;
              glob := λ _, [torch_lib +:+ "/libnccl.so.2"] |} in
  let env' := preload_fallback h [("LD_PRELOAD", "")] in
  environ_get env' "LD_PRELOAD" = Some "/usr/lib/aarch64-linux-gnu/libnccl.so.2"
  ∧ environ_get env' "LD_LIBRARY_PATH"
    = Some ("/usr/lib/aarch64-linux-gnu:" +:+ torch_lib +:+ ":/usr/local/cuda/lib64:").
Proof.
  intros h env'.
  destruct (preload_fallback_prefers_system_library h [("LD_PRELOAD", "")])
    as (H1 & H2).
  - by right.
  - reflexivity.
  - split; [exact H1 | exact H2].
Defined.

(** PATH, in the live environment and in the env file. *)
Lemma unused_variable_is_ignored_witness :
  Settings_new (H:=sample_externals)
    (with_environ bare_world [("DEV", "true"); ("PATH", "/usr/bin")])
  = Settings_new (H:=sample_externals) (with_environ bare_world [("DEV", "true")]).
Proof.
  apply (proj1 (unused_variable_is_ignored (H:=sample_externals) bare_world "PATH"
                  (ascii_name_unused_sound "PATH" eq_refl))
           "/usr/bin" [("DEV", "true")] []).
Defined.

(** HF_TOKEN in the env file only. *)
Lemma env_file_entry_for_group_field_is_ignored_witness :
  Settings_new (H:=sample_externals)
    (with_env_file bare_world ".env" [("HF_TOKEN", Some "hf_secret")])
  = Settings_new (H:=sample_externals) (with_env_file bare_world ".env" []).
Proof.
  apply (env_file_entry_for_group_field_is_ignored (H:=sample_externals)
           bare_world "HF_TOKEN").
  - unfold group_fields. cbn. set_solver.
  - reflexivity.
Defined.

(** DB_URL live and database__DB_URL live. *)
Lemma constructor_argument_wins_over_environment_witness :
  let w := with_environ bare_world
             [("DB_URL", "sqlite:///live.db"); ("database__DB_URL", "sqlite:///nested.db")] in
  ∃ s : @Settings nested_sample_externals,
    Settings_new w = Ok s ∧ DB_URL (database s) = "sqlite:///nested.db".
Proof.
  intros w.
  assert (Hs : ∃ s : @Settings nested_sample_externals, Settings_new w = Ok s)
    by (eexists; reflexivity).
  destruct Hs as [s Hs]. exists s. split; [exact Hs|].
  apply (proj2 (constructor_argument_wins_over_environment (H:=nested_sample_externals)
                  w [("DB_URL", PyStr "sqlite:///nested.db")] "sqlite:///nested.db"
                  eq_refl) s eq_refl Hs).
Defined.

(** database__FOO. *)
Lemma unknown_group_argument_fails_witness :
  Settings_new (H:=nested_sample_externals)
    (with_environ bare_world [("database__FOO", "1")])
  = Raise ConfigValidationError.
Proof.
  apply (proj1 (unknown_group_argument_fails (H:=nested_sample_externals)
                  (with_environ bare_world [("database__FOO", "1")])
                  [("FOO", PyStr "1")] "FOO" (PyStr "1") ltac:(constructor))).
  - intros Hin. unfold DatabaseSettings_fields in Hin. cbn in Hin.
    repeat (apply elem_of_cons in Hin as [Hin|Hin]; [discriminate|]).
    by apply elem_of_nil in Hin.
  - reflexivity.
Defined.

(** The arguments db_url and device, and the variable database__db_url. *)
Lemma group_argument_name_in_any_letter_case_witness :
  let w := with_environ bare_world [("database__db_url", "sqlite:///other.db")] in
  DatabaseSettings_new (H:=nested_sample_externals) [("db_url", PyStr "sqlite:///other.db")] w
  = DatabaseSettings_new (H:=nested_sample_externals) [("DB_URL", PyStr "sqlite:///other.db")] w
  ∧ (∃ s : @Settings nested_sample_externals,
       Settings_new w = Ok s ∧ DB_URL (database s) = "sqlite:///other.db")
  ∧ (∃ wh : @WhisperSettings nested_sample_externals,
       WhisperSettings_new [("device", PyStr "cuda")] w = Ok wh ∧ DEVICE wh = cuda).
Proof.
  intros w. split; [|split].
  - apply (proj1 (group_argument_name_in_any_letter_case (H:=nested_sample_externals)
                    w "db_url" "DB_URL" (PyStr "sqlite:///other.db") eq_refl)).
  - eexists. split; reflexivity.
  - eexists. split; reflexivity.
Defined.

(** DEV=maybe. *)
Lemma unparseable_boolean_fails_witness :
  Settings_new (H:=sample_externals) (with_environ bare_world [("DEV", "maybe")])
  = Raise ConfigValidationError.
Proof.
  apply (proj1 (unparseable_boolean_fails (H:=sample_externals)
                  (with_environ bare_world [("DEV", "maybe")]) [] (PyStr "maybe")
                  eq_refl)).
  reflexivity.
Defined.

(** An environment with PATH and HOME only, on a machine with a GPU. *)
Lemma Settings_without_input_are_the_defaults_witness :
  let w := {| os_environ := [("PATH", "/usr/bin"); ("HOME", "/root")];
              env_files := ∅; cuda_is_available := true |} in
  ∃ s : @Settings sample_externals,
    Settings_new w = Ok s ∧ DEVICE (whisper s) = cuda
    ∧ COMPUTE_TYPE (whisper s) = @float16 sample_externals
    ∧ DB_URL (database s) = "sqlite:///records.db".
Proof.
  intros w. exists (Settings_defaults w). split; [|by repeat split].
  apply Settings_without_input_are_the_defaults.
  - repeat (apply Forall_cons_2; [apply ascii_name_unused_sound; reflexivity|]).
    apply Forall_nil_2.
  - apply Forall_nil_2.
Defined.

(** ENVIRONMENT=Staging. *)
Lemma environment_is_nonempty_and_stable_witness :
  let w := with_environ bare_world [("ENVIRONMENT", "Staging")] in
  ∃ s : @Settings sample_externals,
    Settings_new w = Ok s ∧ ENVIRONMENT s ≠ ""
    ∧ normalize_environment (H:=sample_externals) (ENVIRONMENT s) = ENVIRONMENT s.
Proof.
  intros w.
  assert (Hs : ∃ s : @Settings sample_externals, Settings_new w = Ok s)
    by (eexists; reflexivity).
  destruct Hs as [s Hs]. exists s. split; [exact Hs|].
  destruct (environment_is_nonempty_and_stable w s Hs) as (H1 & _ & H3).
  - intros v [= <-]. reflexivity.
  - split; [exact H1 | exact H3].
Defined.

(** A call under DEVICE=bogus, then two calls after the variable is
    gone. *)
Lemma get_settings_calls_fail_then_succeed_witness :
  let bad := with_environ bare_world [("DEVICE", "bogus")] in
  ∃ (p : @Process sample_externals) n m,
    get_settings_calls [bad; bare_world; bare_world] Process_init
    = (p, replicate n (Raise ConfigValidationError) ++ replicate m (Ok 0))
    ∧ n + m = 3.
Proof.
  intros bad.
  pose (p := {| objects := [Settings_defaults (H:=sample_externals) bare_world];
                cache := Some 0 |}).
  assert (Hrun : get_settings_calls (H:=sample_externals)
                   [bad; bare_world; bare_world] Process_init
                 = (p, [Raise ConfigValidationError; Ok 0; Ok 0])) by reflexivity.
  destruct (get_settings_calls_fail_then_succeed _ _ _ Hrun) as (n & m & Hrs & Hlen & _).
  exists p, n, m. split; [|exact Hlen]. rewrite Hrun. by rewrite Hrs.
Defined.

(** The same failure followed by one good call. *)
Lemma failed_call_is_not_cached_witness :
  let bad := with_environ bare_world [("DEVICE", "bogus")] in
  get_settings_calls (H:=sample_externals) [bad; bare_world] Process_init
  = ({| objects := [Settings_defaults bare_world]; cache := Some 0 |},
     [Raise ConfigValidationError; Ok 0]).
Proof.
  intros bad.
  apply (failed_call_is_not_cached (H:=sample_externals) bad bare_world Process_init
           ConfigValidationError (Settings_defaults bare_world));
    reflexivity.
Defined.

(** The module loaded on a bare machine. *)
Lemma Config_agrees_with_get_settings_witness :
  let h := {| uname_machine := "x86_64"; path_exists := λ _, false; glob := λ _, [] |} in
  ∃ (p : @Process sample_externals) (config : Config.t),
    load_module h bare_world None = Loaded [] p 0 config
    ∧ (∀ w', get_settings w' p = (p, Ok 0))
    ∧ Config.DB_URL config = "sqlite:///records.db".
Proof.
  intros h.
  pose (s := Settings_defaults (H:=sample_externals) bare_world).
  assert (Hload : load_module (H:=sample_externals) h bare_world None
                  = Loaded [] {| objects := [s]; cache := Some 0 |} 0 (Config_class s))
    by reflexivity.
  destruct (Config_agrees_with_get_settings _ _ _ _ _ _ _ Hload)
    as (s' & Hobj & Hget & Hurl & _).
  exists {| objects := [s]; cache := Some 0 |}, (Config_class s).
  split; [exact Hload|]. split; [exact Hget|]. rewrite Hurl.
  injection Hobj as <-. reflexivity.
Defined.

(** The module loaded on a bare machine: the device is cpu. *)
Lemma Config_keeps_the_invariants_witness :
  let h := {| uname_machine := "x86_64"; path_exists := λ _, false; glob := λ _, [] |} in
  ∃ (p : @Process sample_externals) (config : Config.t),
    load_module h bare_world None = Loaded [] p 0 config
    ∧ Config.DEVICE config = cpu
    ∧ Config.COMPUTE_TYPE config = @int8 sample_externals.
Proof.
  intros h.
  pose (s := Settings_defaults (H:=sample_externals) bare_world).
  assert (Hload : load_module (H:=sample_externals) h bare_world None
                  = Loaded [] {| objects := [s]; cache := Some 0 |} 0 (Config_class s))
    by reflexivity.
  destruct (Config_keeps_the_invariants _ _ _ _ _ _ _ Hload) as (_ & Hcpu).
  exists {| objects := [s]; cache := Some 0 |}, (Config_class s).
  split; [exact Hload|]. split; [reflexivity|]. apply Hcpu. reflexivity.
Defined.
